(** * kanso: the CouchDB client of [lib/couchdb.js]

    A shallow embedding of the HTTP client in [src/lib/couchdb.js] and the
    properties of its request executor, existence probe and force workflow.

    The JavaScript is callback based.  Every function of the module takes its
    callback as a continuation here, in a monad that threads the object store,
    the remote server and the log of requests put on the wire, and that can
    stop with an uncaught exception.  Every callback of the source is called
    in tail position, so the answer type of the continuations is left open:
    running an operation with [mret] as its callback yields the argument list
    that the caller's callback receives. *)

From Stdlib Require Import ZArith Ascii String.
From stdpp Require Import base gmap strings list pretty.

Open Scope Z_scope.

(** ** JavaScript values *)

Definition loc := positive.

(** An [http] response after its body has been received: [chunks] are the
    [data] events, in order. *)
Record response := Response {
  statusCode : Z;
  headers : gmap string string;
  chunks : list string
}.

(** Numbers are the integers; objects built by [JSON.parse] or by an object
    literal that never escapes are trees ([VObj], [VArr]); an object owned by
    the caller and mutated in place is a reference into the store ([VRef]).
    [VError message props] is an [Error] object: the argument given to its
    constructor and the properties assigned to it afterwards.  [VCouchDB] is
    the client object itself ([this], [that]). *)
#[warnings="-register-all"]
Inductive value :=
| VUndefined
| VNull
| VBool (b : bool)
| VNum (n : Z)
| VStr (s : string)
| VArr (elems : list value)
| VObj (fields : list (string * value))
| VRef (l : loc)
| VError (message : value) (props : list (string * value))
| VResponse (r : response)
| VHeaders (hs : gmap string string)
| VCouchDB.

(** Own properties in insertion order. *)
Definition object := list (string * value).
Abbreviation store := (gmap loc object).

Inductive completion (A : Type) :=
| Normal (a : A)
| Throw (e : value).
Arguments Normal {A} a.
Arguments Throw {A} e.

Definition TypeError : value := VError (VStr "TypeError") [].

(** [if (v)], [!v], [a && b], [a || b]. *)
Definition truthy (v : value) : bool :=
  match v with
  | VUndefined | VNull => false
  | VBool b => b
  | VNum n => negb (n =? 0)
  | VStr s => negb (String.eqb s "")
  | _ => true
  end.

Definition js_or (a b : value) : value := if truthy a then a else b.
Infix "|||" := js_or (at level 50, left associativity).

(** [typeof v === 'string'] *)
Definition typeof_string (v : value) : bool :=
  match v with VStr _ => true | _ => false end.

(** [a === b] where one side is a number or a string literal. *)
Definition strict_eq (a b : value) : bool :=
  match a, b with
  | VNum x, VNum y => x =? y
  | VStr x, VStr y => String.eqb x y
  | _, _ => false
  end.

Fixpoint get_field (fs : object) (k : string) : value :=
  match fs with
  | [] => VUndefined
  | (k', v) :: fs' => if String.eqb k' k then v else get_field fs' k
  end.

(** [o[k] = v]: overwrite in place, or append a new own property. *)
Fixpoint set_field (k : string) (v : value) (fs : object) : object :=
  match fs with
  | [] => [(k, v)]
  | (k', v') :: fs' =>
      if String.eqb k' k then (k, v) :: fs' else (k', v') :: set_field k v fs'
  end.

(** [v.k], for the property names the module reads.  Reading a property of
    [undefined] or [null] throws. *)
Definition get_prop (h : store) (v : value) (k : string) : completion value :=
  match v with
  | VUndefined | VNull => Throw TypeError
  | VObj fs => Normal (get_field fs k)
  | VRef l => Normal (get_field (default [] (h !! l)) k)
  | VError msg props =>
      Normal (if String.eqb k "message" then msg else get_field props k)
  | VResponse r =>
      Normal (if String.eqb k "statusCode" then VNum (statusCode r)
              else if String.eqb k "headers" then VHeaders (headers r)
              else VUndefined)
  | VHeaders hs =>
      Normal (match hs !! k with Some s => VStr s | None => VUndefined end)
  | _ => Normal VUndefined
  end.

(** [doc.k = v] on an object of the store. *)
Definition store_set (l : loc) (k : string) (v : value) (h : store) : store :=
  <[l := set_field k v (default [] (h !! l))]> h.

(** [s.substr(start, length)] *)
Definition substr (s : string) (start len : Z) : string :=
  let size := Z.of_nat (String.length s) in
  let intStart := if start <? 0 then Z.max (size + start) 0 else Z.min start size in
  let intLength := Z.min (Z.max len 0) size in
  let intEnd := Z.min (intStart + intLength) size in
  String.substring (Z.to_nat intStart) (Z.to_nat (intEnd - intStart)) s.

Definition arg (n : nat) (args : list value) : value :=
  default VUndefined (args !! n).

(** ** The parsed URL and the constructor *)

(** The result of [url.parse]: a missing component is [None]; the port is a
    string when the URL has one, and the constructor stores a number. *)
Record urlObject := UrlObject {
  protocol : option string;
  auth : option string;
  hostname : option string;
  port : value;
  pathname : option string
}.

Definition opt_truthy (o : option string) : bool :=
  match o with Some s => negb (String.eqb s "") | None => false end.

(** [o || ''] for a string, [null] or [undefined] *)
Definition or_empty (o : option string) : string :=
  match o with Some s => s | None => "" end.

(** A component inside a string concatenation. *)
Definition concat_str (o : option string) : string :=
  match o with Some s => s | None => "undefined" end.

Definition opt_value (o : option string) : value :=
  match o with Some s => VStr s | None => VUndefined end.

(** ** What the module takes from node *)

Class Platform := {
  url_parse : string -> urlObject;
  querystring_stringify : store -> value -> string;
  (** [JSON.stringify]: a string, [undefined], or an exception *)
  JSON_stringify : store -> value -> completion (option string);
  (** [JSON.parse]: a value, or an exception *)
  JSON_parse : string -> completion value;
  (** [new Buffer(s).toString('base64')] *)
  base64 : string -> string
}.

Record request := Request {
  req_port : value;
  req_hostname : option string;
  req_method : string;
  req_path : string;
  req_headers : gmap string value;
  req_body : list string
}.

(** What comes back for a request: the client's [error] event, which carries
    an [Error] object, or a response that runs to its [end] event. *)
Inductive net_event :=
| NetError (message : string)
| NetResponse (r : response).

Record world {S : Type} := World {
  heap : store;
  remote : S;
  sent : list request
}.
Arguments world S : clear implicits.

(** ** The monad *)

Definition M (S A : Type) : Type := world S -> completion A * world S.

#[global] Instance M_ret {S} : MRet (M S) := fun A a w => (Normal a, w).

#[global] Instance M_bind {S} : MBind (M S) := fun A B f m w =>
  match m w with
  | (Normal a, w') => f a w'
  | (Throw e, w') => (Throw e, w')
  end.

Definition lift {S A} (c : completion A) : M S A := fun w => (c, w).

Definition get_heap {S} : M S store := fun w => (Normal (heap w), w).

Definition assign {S} (l : loc) (k : string) (v : value) : M S unit := fun w =>
  (Normal tt,
   {| heap := store_set l k v (heap w); remote := remote w; sent := sent w |}).

Definition read {S} (v : value) (k : string) : M S value := fun w =>
  (get_prop (heap w) v k, w).

Definition callback (S R : Type) : Type := list value -> M S R.

Section CouchDB.

Context `{Platform} {S : Type}.
Variable serve : S -> request -> net_event * S.

(** [request.end()]: the request goes on the wire and the server answers. *)
Definition transmit (req : request) : M S net_event := fun w =>
  let '(ev, s') := serve (remote w) req in
  (Normal ev, {| heap := heap w; remote := s'; sent := sent w ++ [req] |}).

(** lines 35-45 *)
Definition CouchDB (db_url : string) : urlObject :=
  let ins := url_parse db_url in
  if negb (truthy (port ins)) then
    if bool_decide (protocol ins = Some "https:") then
      {| protocol := protocol ins; auth := auth ins; hostname := hostname ins;
         port := VNum 443; pathname := pathname ins |}
    else
      {| protocol := protocol ins; auth := auth ins; hostname := hostname ins;
         port := VNum 80; pathname := pathname ins |}
  else ins.

Definition is_write (method : string) : bool :=
  String.eqb method "POST" || String.eqb method "PUT".

(** lines 129-149: the [end] handler of a response *)
Definition parsed_body (response : response) : completion value :=
  match chunks response with
  | [] => Normal VNull
  | _ => JSON_parse (String.concat "" (chunks response))
  end.

Definition on_end {R} (response : response) (callback : callback S R) : M S R :=
  data ← lift (parsed_body response);
  if 300 <=? statusCode response then
    has_error ← (if truthy data then e ← read data "error"; mret (truthy e)
                 else mret false);
    if has_error : bool then
      reason ← read data "reason";
      error ← read data "error";
      let err := VError (reason ||| error)
                   [("error", error); ("reason", reason);
                    ("response", VResponse response)] in
      callback [err; data; VResponse response]
    else
      let err2 := VError (VStr ("Status code: " +:+ pretty (statusCode response))) [] in
      callback [err2; data; VResponse response]
  else
    callback [VNull; data; VResponse response].

(** lines 109-155: the request is built and sent, the handlers run *)
Definition build_request (this : urlObject) (method path : string)
    (data : value) (headers : gmap string value) : request :=
  let headers :=
    if opt_truthy (auth this)
    then <["Authorization" := VStr ("Basic " +:+ base64 (or_empty (auth this)))]> headers
    else headers in
  {| req_port := port this; req_hostname := hostname this;
     req_method := method; req_path := path; req_headers := headers;
     req_body := if truthy data && is_write method
                 then match data with VStr s => [s] | _ => [] end
                 else [] |}.

(** lines 115 and 118: the handlers of the two events *)
Definition respond {R} (ev : net_event) (callback : callback S R) : M S R :=
  match ev with
  | NetError message => callback [VError (VStr message) []]
  | NetResponse response => on_end response callback
  end.

Definition client_send {R} (this : urlObject) (method path : string)
    (data : value) (headers : gmap string value) (callback : callback S R) : M S R :=
  ev ← transmit (build_request this method path data headers);
  respond ev callback.

Definition base_headers (this : urlObject) : gmap string value :=
  {[ "Host" := opt_value (hostname this); "Accept" := VStr "application/json" ]}.

Definition json_headers (this : urlObject) : gmap string value :=
  <["Content-Type" := VStr "application/json"]> (base_headers this).

(** lines 87-158 *)
Definition client {R} (this : urlObject) (method path : string) (data : value)
    (callback : callback S R) : M S R :=
  let path := or_empty (pathname this) +:+ "/" +:+ path in
  if is_write method then
    if negb (typeof_string data) then
      h ← get_heap;
      match JSON_stringify h data with
      | Throw e => callback [e]
      | Normal o =>
          client_send this method path (opt_value o) (json_headers this) callback
      end
    else client_send this method path data (json_headers this) callback
  else if truthy data then
    h ← get_heap;
    client_send this method
      (concat_str (pathname (url_parse path)) +:+ "?" +:+ querystring_stringify h data)
      data (base_headers this) callback
  else client_send this method path data (base_headers this) callback.

(** The request that [client] puts on the wire for its arguments, or the
    exception of [JSON.stringify] that it hands to the callback instead
    (lines 88-112 and 152-154 on their own). *)
Definition client_request (this : urlObject) (method path : string)
    (data : value) (h : store) : completion request :=
  let path := or_empty (pathname this) +:+ "/" +:+ path in
  if is_write method then
    if negb (typeof_string data) then
      match JSON_stringify h data with
      | Throw e => Throw e
      | Normal o =>
          Normal (build_request this method path (opt_value o) (json_headers this))
      end
    else Normal (build_request this method path data (json_headers this))
  else if truthy data then
    Normal (build_request this method
              (concat_str (pathname (url_parse path)) +:+ "?" +:+ querystring_stringify h data)
              data (base_headers this))
  else Normal (build_request this method path data (base_headers this)).

(** The world once [q] has gone out and the server has answered. *)
Definition after (w : world S) (q : request) : world S :=
  {| heap := heap w; remote := (serve (remote w) q).2; sent := sent w ++ [q] |}.

(** The [HEAD] request of the probe. *)
Definition probe_request (this : urlObject) (id : option string) : request :=
  build_request this "HEAD" (or_empty (pathname this) +:+ "/" +:+ or_empty id)
    VNull (base_headers this).

(** lines 169-181 *)
Definition rev_of_etag (etag : value) : completion value :=
  if truthy etag then
    match etag with
    | VStr s => Normal (VStr (substr s 1 (Z.of_nat (String.length s) - 2)))
    | _ => Throw TypeError
    end
  else Normal VNull.

Definition exists_ {R} (this : urlObject) (id : option string)
    (callback : callback S R) : M S R :=
  let id := or_empty id in
  client this "HEAD" id VNull (fun args =>
    let err := arg 0 args in
    let res := arg 2 args ||| VObj [] in
    status ← read res "statusCode";
    if negb (strict_eq status (VNum 404)) && truthy err then callback [err]
    else
      let exists_flag := strict_eq status (VNum 200) in
      hs ← read res "headers";
      etag ← read hs "etag";
      _rev ← lift (rev_of_etag etag);
      callback [VNull; VBool exists_flag; _rev]).

(** The [PUT] or [POST] request of [save] with the serialized document. *)
Definition save_request (this : urlObject) (id : option string)
    (o : option string) : request :=
  build_request this (if opt_truthy id then "PUT" else "POST")
    (or_empty (pathname this) +:+ "/" +:+ or_empty id)
    (opt_value o) (json_headers this).

(** The [PUT] request of [createDB]. *)
Definition create_request (this : urlObject) (o : option string) : request :=
  build_request this "PUT" (or_empty (pathname this) +:+ "/" +:+ "")
    (opt_value o) (json_headers this).

(** lines 71-73 *)
Definition createDB {R} (this : urlObject) (callback : callback S R) : M S R :=
  client this "PUT" "" VNull callback.

(** lines 54-62 *)
Definition ensureDB {R} (this : urlObject) (callback : callback S R) : M S R :=
  exists_ this (Some "") (fun args =>
    let err := arg 0 args in
    let exists_flag := arg 1 args in
    if truthy err || truthy exists_flag then callback [err; VCouchDB]
    else createDB this callback).

(** lines 192-198: [data] is [None] when the call has two arguments *)
Definition get {R} (this : urlObject) (id : option string) (data : option value)
    (callback : callback S R) : M S R :=
  client this "GET" (or_empty id) (default VNull data) callback.

(** lines 233-240: the callback of the write in the force path *)
Definition save_written {R} (doc : loc) (callback : callback S R)
    (args : list value) : M S R :=
  let err := arg 0 args in
  let d := arg 1 args in
  if truthy err then callback [err]
  else
    id' ← read d "id";
    assign doc "_id" id' ;;
    rev' ← read d "rev";
    assign doc "_rev" rev' ;;
    callback [VNull; VRef doc].

(** lines 213-246: [options] is [None] when the call has three arguments *)
Definition save {R} (this : urlObject) (id : option string) (doc : loc)
    (options : option object) (callback : callback S R) : M S R :=
  let options := default [] options in
  let method := if opt_truthy id then "PUT" else "POST" in
  let path := or_empty id in
  if truthy (get_field options "force") then
    exists_ this id (fun args =>
      let err := arg 0 args in
      let exists_flag := arg 1 args in
      let rev := arg 2 args in
      if truthy err then callback [err]
      else
        (if truthy exists_flag then assign doc "_rev" rev else mret tt) ;;
        client this method path (VRef doc) (save_written doc callback))
  else client this method path (VRef doc) callback.

(** lines 261-290 *)
Definition delete_args (rev : value) : object :=
  if truthy rev then set_field "rev" rev [] else [].

(** The [DELETE] request for the query arguments [args]. *)
Definition delete_request (this : urlObject) (id : option string)
    (args : object) (h : store) : request :=
  build_request this "DELETE"
    (concat_str (pathname (url_parse (or_empty (pathname this) +:+ "/" +:+ or_empty id)))
       +:+ "?" +:+ querystring_stringify h (VObj args))
    (VObj args) (base_headers this).

Definition delete {R} (this : urlObject) (id : option string) (rev : value)
    (options : option object) (callback : callback S R) : M S R :=
  let options := default [] options in
  let args := delete_args rev in
  let path := or_empty id in
  if truthy (get_field options "force") then
    exists_ this id (fun a =>
      let err := arg 0 a in
      let exists_flag := arg 1 a in
      let rev := arg 2 a in
      if truthy err then callback [err]
      else
        let args := if truthy exists_flag then set_field "rev" rev args else args in
        client this "DELETE" path (VObj args) callback)
  else client this "DELETE" path (VObj args) callback.

End CouchDB.

Arguments respond {_ _ _} ev callback.
Arguments after {_} serve w q.
Arguments on_end {_ _ _} response callback.
Arguments client {_ _} serve {_} this method path data callback.
Arguments client_send {_ _} serve {_} this method path data headers callback.
Arguments exists_ {_ _} serve {_} this id callback.
Arguments createDB {_ _} serve {_} this callback.
Arguments ensureDB {_ _} serve {_} this callback.
Arguments get {_ _} serve {_} this id data callback.
Arguments save {_ _} serve {_} this id doc options callback.
Arguments save_written {_ _} doc callback args.
Arguments delete {_ _} serve {_} this id rev options callback.

(** ** The words of the specification

    The outcome classes of the executor and the revision of an entity tag, as
    the specification names them. *)

(** [d.k] where [d] is known not to be [null] or [undefined]. *)
Definition field (h : store) (d : value) (k : string) : value :=
  match get_prop h d k with Normal v => v | Throw _ => VUndefined end.

(** The error built from a body that reports one: the server's code and
    reason, and the response. *)
Definition database_error (h : store) (d : value) (r : response) : value :=
  VError (field h d "reason" ||| field h d "error")
    [("error", field h d "error"); ("reason", field h d "reason");
     ("response", VResponse r)].

(** The error that carries the status code only. *)
Definition status_failure (r : response) : value :=
  VError (VStr ("Status code: " +:+ pretty (statusCode r))) [].

(** The body carries an error code that JavaScript counts as set. *)
Definition reports_error (h : store) (d : value) : bool :=
  truthy d && truthy (field h d "error").

(** The first argument of the executor's callback for a response of status
    [statusCode r] whose body parsed to [d]. *)
Definition outcome_error (h : store) (r : response) (d : value) : value :=
  if statusCode r <? 300 then VNull
  else if reports_error h d then database_error h d r
  else status_failure r.

(** The body has an own property [error], whatever its value. *)
Definition has_error_field (d : value) : Prop :=
  match d with
  | VObj fs => "error" ∈ map fst fs
  | _ => False
  end.

Fixpoint drop_last (s : string) : string :=
  match s with
  | EmptyString => EmptyString
  | String c EmptyString => EmptyString
  | String c s' => String c (drop_last s')
  end.

(** A string without its first and its last character. *)
Definition strip_ends (s : string) : string :=
  match s with
  | EmptyString => EmptyString
  | String _ s' => drop_last s'
  end.

(** The revision of a response: its entity tag without the two quotes, [null]
    without an entity tag (an empty header value counts as none). *)
Definition revision_of (r : response) : value :=
  match headers r !! "etag" with
  | Some e => if String.eqb e "" then VNull else VStr (strip_ends e)
  | None => VNull
  end.

(** ** The operations in direct style

    What the callback of [client] and of [exists] receives for an event of
    the transport; the lemmas [client_run] and [exists_run] relate them to
    the code. *)

Definition respond_result `{Platform} (h : store) (ev : net_event)
    : completion (list value) :=
  match ev with
  | NetError message => Normal [VError (VStr message) []]
  | NetResponse r =>
      match parsed_body r with
      | Normal d => Normal [outcome_error h r d; d; VResponse r]
      | Throw e => Throw e
      end
  end.

Definition probe_result `{Platform} (h : store) (ev : net_event)
    : completion (list value) :=
  match ev with
  | NetError message => Normal [VError (VStr message) []]
  | NetResponse r =>
      match parsed_body r with
      | Normal d =>
          if (300 <=? statusCode r) && negb (statusCode r =? 404)
          then Normal [outcome_error h r d]
          else Normal [VNull; VBool (statusCode r =? 200); revision_of r]
      | Throw e => Throw e
      end
  end.

(** What the callback of [ensureDB] receives from a call that succeeded:
    [(null, that)] from line 58, or [(null, data, response)] from the
    [createDB] of line 60. *)
Definition ensured (args : list value) : Prop :=
  args = [VNull; VCouchDB] ∨ ∃ d r, args = [VNull; d; VResponse r].

(** A server whose probe of the root path reports the database: [db] holds
    of the state after a create or a probe of the root path that the server
    answered with success, and in a state of which [db] holds the probe is
    answered by 200 without a body. *)
Definition probe_reports_database `{Platform} {S : Type}
    (serve : S -> request -> net_event * S) (this : urlObject)
    (db : S -> Prop) : Prop :=
  (∀ s o r s',
     serve s (create_request this o) = (NetResponse r, s') ->
     statusCode r < 300 -> db s') ∧
  (∀ s r s',
     serve s (probe_request this (Some "")) = (NetResponse r, s') ->
     statusCode r = 200 -> db s') ∧
  (∀ s, db s ->
     ∃ r s',
       serve s (probe_request this (Some "")) = (NetResponse r, s') ∧
       statusCode r = 200 ∧ chunks r = []).

(** ** A platform and two servers to run the client on

    The node functions on the inputs of the examples below, and servers: one
    that answers from a script, and two that keep a single database. *)

Definition dq : string := String "034"%char EmptyString.
Definition quoted (s : string) : string := dq +:+ s +:+ dq.

Fixpoint escape (s : string) : string :=
  match s with
  | EmptyString => EmptyString
  | String c s' =>
      if Ascii.eqb c "034"%char || Ascii.eqb c "092"%char
      then String "092"%char (String c (escape s'))
      else String c (escape s')
  end.

Definition comma_join (parts : list string) : string := String.concat "," parts.

(** [JSON.stringify] on integers, strings without control characters, arrays
    and objects; a cycle through the store throws. *)
Fixpoint demo_stringify_go (fuel : nat) (h : store) (seen : list loc)
    (v : value) : completion (option string) :=
  match fuel with
  | O => Throw (VError (VStr "RangeError") [])
  | Datatypes.S fuel' =>
      let members (fs : object) : completion (option string) :=
        (fix go (fs : object) (acc : list string) : completion (option string) :=
           match fs with
           | [] => Normal (Some ("{" +:+ comma_join (reverse acc) +:+ "}"))
           | (k, x) :: fs' =>
               match demo_stringify_go fuel' h seen x with
               | Throw e => Throw e
               | Normal None => go fs' acc
               | Normal (Some t) => go fs' ((quoted (escape k) +:+ ":" +:+ t) :: acc)
               end
           end) fs [] in
      match v with
      | VUndefined => Normal None
      | VNull => Normal (Some "null")
      | VBool b => Normal (Some (if b then "true" else "false"))
      | VNum n => Normal (Some (pretty n))
      | VStr s => Normal (Some (quoted (escape s)))
      | VArr xs =>
          (fix go (xs : list value) (acc : list string) : completion (option string) :=
             match xs with
             | [] => Normal (Some ("[" +:+ comma_join (reverse acc) +:+ "]"))
             | x :: xs' =>
                 match demo_stringify_go fuel' h seen x with
                 | Throw e => Throw e
                 | Normal None => go xs' ("null" :: acc)
                 | Normal (Some t) => go xs' (t :: acc)
                 end
             end) xs []
      | VObj fs => members fs
      | VRef l =>
          if bool_decide (l ∈ seen) then Throw TypeError
          else
            (fix go (fs : object) (acc : list string) : completion (option string) :=
               match fs with
               | [] => Normal (Some ("{" +:+ comma_join (reverse acc) +:+ "}"))
               | (k, x) :: fs' =>
                   match demo_stringify_go fuel' h (l :: seen) x with
                   | Throw e => Throw e
                   | Normal None => go fs' acc
                   | Normal (Some t) => go fs' ((quoted (escape k) +:+ ":" +:+ t) :: acc)
                   end
               end) (default [] (h !! l)) []
      | VError _ props => members props
      | VResponse _ | VHeaders _ | VCouchDB => Normal (Some "{}")
      end
  end.

Definition demo_stringify (h : store) (v : value) : completion (option string) :=
  demo_stringify_go 64 h [] v.

Definition SyntaxError : value := VError (VStr "SyntaxError") [].

Definition conflict_body : string :=
  "{" +:+ quoted "error" +:+ ":" +:+ quoted "conflict" +:+ ","
      +:+ quoted "reason" +:+ ":" +:+ quoted "Document update conflict." +:+ "}".

Definition blank_error_body : string :=
  "{" +:+ quoted "error" +:+ ":" +:+ quoted "" +:+ ","
      +:+ quoted "reason" +:+ ":" +:+ quoted "Document update conflict." +:+ "}".

Definition saved_body : string :=
  "{" +:+ quoted "ok" +:+ ":true," +:+ quoted "id" +:+ ":" +:+ quoted "a" +:+ ","
      +:+ quoted "rev" +:+ ":" +:+ quoted "4-def" +:+ "}".

Definition ok_body : string := "{" +:+ quoted "ok" +:+ ":true}".

Definition file_exists_body : string :=
  "{" +:+ quoted "error" +:+ ":" +:+ quoted "file_exists" +:+ ","
      +:+ quoted "reason" +:+ ":" +:+ quoted "The database could not be created." +:+ "}".

(** [JSON.parse] on the bodies above; any other text is taken not to be JSON. *)
Definition demo_parse (s : string) : completion value :=
  if String.eqb s conflict_body then
    Normal (VObj [("error", VStr "conflict");
                  ("reason", VStr "Document update conflict.")])
  else if String.eqb s blank_error_body then
    Normal (VObj [("error", VStr "");
                  ("reason", VStr "Document update conflict.")])
  else if String.eqb s saved_body then
    Normal (VObj [("ok", VBool true); ("id", VStr "a"); ("rev", VStr "4-def")])
  else if String.eqb s ok_body then
    Normal (VObj [("ok", VBool true)])
  else if String.eqb s file_exists_body then
    Normal (VObj [("error", VStr "file_exists");
                  ("reason", VStr "The database could not be created.")])
  else Throw SyntaxError.

(** [url.parse] on three base URLs; any other string is a path without query
    or fragment, which is its own pathname. *)
Definition demo_url_parse (s : string) : urlObject :=
  if String.eqb s "https://db.example.com/app" then
    {| protocol := Some "https:"; auth := None; hostname := Some "db.example.com";
       port := VUndefined; pathname := Some "/app" |}
  else if String.eqb s "http://localhost/app" then
    {| protocol := Some "http:"; auth := None; hostname := Some "localhost";
       port := VUndefined; pathname := Some "/app" |}
  else if String.eqb s "http://localhost:5984/app" then
    {| protocol := Some "http:"; auth := None; hostname := Some "localhost";
       port := VStr "5984"; pathname := Some "/app" |}
  else
    {| protocol := None; auth := None; hostname := None;
       port := VUndefined; pathname := Some s |}.

(** [querystring.stringify] on an object whose values are strings that need
    no escaping. *)
Definition demo_querystring (h : store) (v : value) : string :=
  let pairs (fs : object) :=
    String.concat "&"
      (map (fun kv => fst kv +:+ "=" +:+
                      match snd kv with VStr t => t | _ => "" end) fs) in
  match v with
  | VObj fs => pairs fs
  | VRef l => pairs (default [] (h !! l))
  | _ => ""
  end.

(** Base64 of the one credential string used below. *)
Definition demo_base64 (s : string) : string :=
  if String.eqb s "user:secret" then "dXNlcjpzZWNyZXQ=" else "".

Definition node : Platform := {|
  url_parse := demo_url_parse;
  querystring_stringify := demo_querystring;
  JSON_stringify := demo_stringify;
  JSON_parse := demo_parse;
  base64 := demo_base64
|}.

(** A server that answers from a script, whatever the request. *)
Definition scripted (script : list net_event) (req : request)
    : net_event * list net_event :=
  match script with
  | ev :: script' => (ev, script')
  | [] => (NetError "ECONNREFUSED", [])
  end.

(** A server that holds one database at the root path: the state tells
    whether the database exists. *)
Definition couch (db : bool) (req : request) : net_event * bool :=
  if String.eqb (req_method req) "HEAD" then
    (NetResponse {| statusCode := if db then 200 else 404;
                    headers := ∅; chunks := [] |}, db)
  else if String.eqb (req_method req) "PUT" then
    if db then
      (NetResponse {| statusCode := 412; headers := ∅;
                      chunks := [file_exists_body] |}, true)
    else
      (NetResponse {| statusCode := 201; headers := ∅;
                      chunks := [ok_body] |}, true)
  else
    (NetResponse {| statusCode := 405; headers := ∅; chunks := [] |}, db).

(** A server that holds one database as [couch] does, but whose answer to a
    [HEAD] is 404 whether the database is there or not. *)
Definition forgetful (db : bool) (req : request) : net_event * bool :=
  if String.eqb (req_method req) "HEAD" then
    (NetResponse {| statusCode := 404; headers := ∅; chunks := [] |}, db)
  else couch db req.

Definition local : urlObject :=
  {| protocol := Some "http:"; auth := None; hostname := Some "localhost";
     port := VStr "5984"; pathname := Some "/app" |}.

Definition start {S} (h : store) (s : S) : world S :=
  {| heap := h; remote := s; sent := [] |}.

Definition etag_response (status : Z) (etag : string) : response :=
  {| statusCode := status; headers := {[ "etag" := etag ]}; chunks := [] |}.

Definition plain_response (status : Z) (body : list string) : response :=
  {| statusCode := status; headers := ∅; chunks := body |}.

(** Stores and bodies of the examples. *)

Definition doc1 : loc := 1%positive.

Definition named_x : store := {[ doc1 := [("name", VStr "x"); ("_rev", VStr "1-old")] ]}.

Definition cyclic : store := {[ doc1 := [("self", VRef doc1)] ]}.

Definition forced : object := [("force", VBool true)].

Definition stamped_body : string :=
  "{" +:+ quoted "name" +:+ ":" +:+ quoted "x" +:+ ","
      +:+ quoted "_rev" +:+ ":" +:+ quoted "3-abc" +:+ "}".

Definition unstamped_body : string :=
  "{" +:+ quoted "name" +:+ ":" +:+ quoted "x" +:+ ","
      +:+ quoted "_rev" +:+ ":" +:+ quoted "1-old" +:+ "}".

(** ** The module's entry point and the effects of an operation *)

(** lines 22-24: [module.exports] *)
Definition exports `{Platform} (db_url : string) : urlObject := CouchDB db_url.

(** The log of [w'] is the log of [w] followed by at most [n] requests. *)
Definition grows_by {S} (n : nat) (w w' : world S) : Prop :=
  ∃ l, sent w' = sent w ++ l ∧ (length l ≤ n)%nat.

(** The store [h'] is [h] but for the identifier and the revision of the
    object at [doc]. *)
Definition same_except (doc : loc) (h h' : store) : Prop :=
  (∀ l, l ≠ doc -> h' !! l = h !! l) ∧
  (∀ k, k ≠ "_id" -> k ≠ "_rev" ->
     field h' (VRef doc) k = field h (VRef doc) k).

(** The world in which the write of [save] runs after a probe that handed
    over [args] in [w1]. *)
Definition stamped {S} (doc : loc) (args : list value) (w1 : world S) : world S :=
  if truthy (arg 1 args)
  then {| heap := store_set doc "_rev" (arg 2 args) (heap w1);
          remote := remote w1; sent := sent w1 |}
  else w1.

(** An instance with credentials, for the examples. *)
Definition secured : urlObject :=
  {| protocol := Some "https:"; auth := Some "user:secret";
     hostname := Some "db.example.com"; port := VNum 443;
     pathname := Some "/app" |}.

Definition null_rev_body : string :=
  "{" +:+ quoted "name" +:+ ":" +:+ quoted "x" +:+ ","
      +:+ quoted "_rev" +:+ ":null}".

(** * Properties *)

Ltac munfold :=
  unfold mbind, M_bind, mret, M_ret, lift, read, get_heap, assign, transmit in *.

(** ** [substr] on an entity tag *)

Lemma substring_drop_last (s : string) :
  String.substring 0 (String.length s - 1) s = drop_last s.
Proof.
  induction s as [|c s IH]; [reflexivity|].
  destruct s as [|c' s']; [reflexivity|].
  replace (String.length (String c (String c' s')) - 1)%nat
    with (Datatypes.S (String.length (String c' s') - 1)) by (simpl; lia).
  change (drop_last (String c (String c' s')))
    with (String c (drop_last (String c' s'))).
  rewrite <- IH. reflexivity.
Qed.

Lemma substr_strip_ends (s : string) :
  substr s 1 (Z.of_nat (String.length s) - 2) = strip_ends s.
Proof.
  destruct s as [|c s]; [reflexivity|].
  unfold substr. cbn [String.length strip_ends].
  set (n := String.length s).
  replace (1 <? 0) with false by reflexivity.
  replace (Z.min 1 (Z.of_nat (Datatypes.S n))) with 1 by lia.
  replace (Z.to_nat 1) with 1%nat by reflexivity.
  replace (Z.to_nat _) with (n - 1)%nat by lia.
  cbn [String.substring]. apply substring_drop_last.
Qed.

Lemma rev_of_etag_header (r : response) :
  rev_of_etag (match headers r !! "etag" with
               | Some s => VStr s
               | None => VUndefined
               end) = Normal (revision_of r).
Proof.
  unfold rev_of_etag, revision_of.
  destruct (headers r !! "etag") as [e|]; [|reflexivity].
  simpl. destruct (String.eqb e ""); simpl; [reflexivity|].
  by rewrite substr_strip_ends.
Qed.

Lemma field_get_prop h d k :
  truthy d = true -> get_prop h d k = Normal (field h d k).
Proof. unfold field. destruct d; simpl; try discriminate; reflexivity. Qed.

Lemma outcome_error_truthy h r d :
  truthy (outcome_error h r d) = (300 <=? statusCode r).
Proof.
  unfold outcome_error.
  destruct (Z.ltb_spec (statusCode r) 300).
  - simpl. lia.
  - destruct (reports_error h d); simpl; lia.
Qed.

Section Properties.

Context `{Platform} {S : Type}.
Variable serve : S -> request -> net_event * S.

(** ** The executor *)

Lemma on_end_normal {R} (r : response) (d : value) (k : callback S R) (w : world S) :
  parsed_body r = Normal d ->
  on_end r k w = k [outcome_error (heap w) r d; d; VResponse r] w.
Proof.
  intros Hd. unfold on_end, outcome_error, reports_error. munfold. rewrite Hd.
  destruct (Z.leb_spec 300 (statusCode r)) as [Hs|Hs].
  - replace (statusCode r <? 300) with false by lia.
    destruct (truthy d) eqn:Ht; simpl; [|reflexivity].
    rewrite (field_get_prop (heap w) d "error" Ht).
    destruct (truthy (field (heap w) d "error")); [|reflexivity].
    rewrite (field_get_prop (heap w) d "reason" Ht),
      (field_get_prop (heap w) d "error" Ht).
    reflexivity.
  - replace (statusCode r <? 300) with true by lia. reflexivity.
Qed.

Lemma on_end_throw {R} (r : response) (e : value) (k : callback S R) (w : world S) :
  parsed_body r = Throw e -> on_end r k w = (Throw e, w).
Proof. intros He. unfold on_end. munfold. by rewrite He. Qed.

Lemma respond_eq {R} (ev : net_event) (k : callback S R) (w : world S) :
  respond ev k w =
  match respond_result (heap w) ev with
  | Normal args => k args w
  | Throw e => (Throw e, w)
  end.
Proof.
  destruct ev as [msg|r]; simpl; [reflexivity|].
  destruct (parsed_body r) as [d|e] eqn:Hb.
  - by apply on_end_normal.
  - by apply on_end_throw.
Qed.

Lemma client_eq {R} this method path data (k : callback S R) (w : world S) :
  client serve this method path data k w =
  match client_request this method path data (heap w) with
  | Throw e => k [e] w
  | Normal q => respond (serve (remote w) q).1 k (after serve w q)
  end.
Proof.
  unfold client, client_request, client_send. munfold.
  destruct (is_write method); [destruct (negb (typeof_string data))|destruct (truthy data)];
    try destruct (JSON_stringify (heap w) data) as [o|e]; try reflexivity;
    unfold after; destruct (serve _ _); reflexivity.
Qed.

(** [client] with the callback that returns its arguments. *)
Lemma client_run this method path data (w : world S) :
  client serve this method path data mret w =
  match client_request this method path data (heap w) with
  | Throw e => (Normal [e], w)
  | Normal q =>
      (respond_result (heap w) (serve (remote w) q).1, after serve w q)
  end.
Proof.
  rewrite client_eq. destruct (client_request _ _ _ _ _) as [q|e]; [|reflexivity].
  rewrite respond_eq. simpl. by destruct (respond_result _ _).
Qed.

(** Every callback is called in tail position. *)
Lemma client_bind {R} this method path data (k : callback S R) (w : world S) :
  client serve this method path data k w =
  match client serve this method path data mret w with
  | (Normal args, w') => k args w'
  | (Throw e, w') => (Throw e, w')
  end.
Proof.
  rewrite client_run, client_eq.
  destruct (client_request _ _ _ _ _) as [q|e]; [|reflexivity].
  rewrite respond_eq. simpl. by destruct (respond_result _ _).
Qed.

(** ** The probe *)

Lemma probe_client_request this id (h : store) :
  client_request this "HEAD" (or_empty id) VNull h = Normal (probe_request this id).
Proof. reflexivity. Qed.

Lemma exists_eq {R} this id (k : callback S R) (w : world S) :
  exists_ serve this id k w =
  match probe_result (heap w) (serve (remote w) (probe_request this id)).1 with
  | Normal args => k args (after serve w (probe_request this id))
  | Throw e => (Throw e, after serve w (probe_request this id))
  end.
Proof.
  unfold exists_. rewrite client_eq, probe_client_request, respond_eq.
  destruct (serve (remote w) (probe_request this id)).1 as [msg|r]; simpl;
    [reflexivity|].
  destruct (parsed_body r) as [d|e]; [|reflexivity].
  munfold. unfold arg. simpl.
  rewrite outcome_error_truthy, rev_of_etag_header.
  rewrite (andb_comm (300 <=? statusCode r)).
  destruct (negb (statusCode r =? 404) && (300 <=? statusCode r)); reflexivity.
Qed.

Lemma exists_run this id (w : world S) :
  exists_ serve this id mret w =
  (probe_result (heap w) (serve (remote w) (probe_request this id)).1,
   after serve w (probe_request this id)).
Proof. rewrite exists_eq. by destruct (probe_result _ _). Qed.

Lemma exists_bind {R} this id (k : callback S R) (w : world S) :
  exists_ serve this id k w =
  match exists_ serve this id mret w with
  | (Normal args, w') => k args w'
  | (Throw e, w') => (Throw e, w')
  end.
Proof. rewrite exists_run, exists_eq. by destruct (probe_result _ _). Qed.

(** ** The claims on the executor *)

(** C2, as amended: for every completed response whose body is empty or
    parses as JSON, the callback of [client] receives the parsed body and the
    response next to its first argument, which is [null] for a status below
    300, the error built from the server's code and reason for a status of
    300 or more when the body reports an error code (its [error] property is
    set in the sense of JavaScript: not empty, [null], [false] or [0]), and
    the error that carries the status code only for every other status of
    300 or more. *)
Theorem client_classifies_response this method path data (w : world S) q r d :
  client_request this method path data (heap w) = Normal q ->
  (serve (remote w) q).1 = NetResponse r ->
  parsed_body r = Normal d ->
  ∃ err,
    client serve this method path data mret w
      = (Normal [err; d; VResponse r], after serve w q) ∧
    (statusCode r < 300 -> err = VNull) ∧
    (300 ≤ statusCode r -> reports_error (heap w) d = true ->
       err = database_error (heap w) d r ∧
       field (heap w) err "error" = field (heap w) d "error" ∧
       field (heap w) err "reason" = field (heap w) d "reason") ∧
    (300 ≤ statusCode r -> reports_error (heap w) d = false ->
       err = status_failure r).
Proof.
  intros Hq Hev Hd. exists (outcome_error (heap w) r d).
  rewrite client_run, Hq, Hev. simpl. rewrite Hd.
  unfold outcome_error. split; [reflexivity|]. split; [|split].
  - intros Hs. by replace (statusCode r <? 300) with true by lia.
  - intros Hs Hr. replace (statusCode r <? 300) with false by lia.
    rewrite Hr. done.
  - intros Hs Hr. replace (statusCode r <? 300) with false by lia.
    by rewrite Hr.
Qed.

(** C8: a [POST] or [PUT] whose payload [JSON.stringify] rejects hands the
    exception to the callback at once, in the world as it was: no client is
    created and no request is sent. *)
Theorem client_serialization_failure {R} this method path data e
    (k : callback S R) (w : world S) :
  is_write method = true ->
  typeof_string data = false ->
  JSON_stringify (heap w) data = Throw e ->
  client serve this method path data k w = k [e] w ∧
  client serve this method path data mret w = (Normal [e], w) ∧
  sent (client serve this method path data mret w).2 = sent w.
Proof.
  intros Hm Ht He.
  assert (Hreq : client_request this method path data (heap w) = Throw e).
  { unfold client_request. by rewrite Hm, Ht, He. }
  rewrite !client_eq, Hreq. done.
Qed.

(** C10: a [POST] or [PUT] whose payload is a string puts that string on the
    wire as the body, as it is, whatever [JSON.stringify] would make of it;
    so that when [client] hands an exception of the serializer to its
    callback instead of a request, the payload was not a string. *)
Theorem client_sends_string_verbatim this method path s (w : world S) :
  is_write method = true ->
  (∃ q,
     client_request this method path (VStr s) (heap w) = Normal q ∧
     String.concat "" (req_body q) = s ∧
     sent (client serve this method path (VStr s) mret w).2 = sent w ++ [q]) ∧
  (∀ data e,
     client_request this method path data (heap w) = Throw e ->
     typeof_string data = false ∧ JSON_stringify (heap w) data = Throw e).
Proof.
  intros Hm. split.
  - eexists. split; [|split].
    + unfold client_request. rewrite Hm. simpl. reflexivity.
    + unfold build_request. cbn [req_body]. rewrite Hm, andb_true_r.
      destruct s; reflexivity.
    + rewrite client_run. unfold client_request. rewrite Hm. reflexivity.
  - intros data e. unfold client_request. rewrite Hm.
    destruct (typeof_string data); simpl; [discriminate|].
    destruct (JSON_stringify (heap w) data); [discriminate|].
    intros [= ->]. done.
Qed.

(** ** The claims on the probe *)

(** C4, as amended: for every probe that completes with a response, the flag
    handed to the callback is [true] exactly when the status is 200; a result
    is handed over (rather than an error) exactly for a status below 300 or
    of 404, and then the revision is the entity tag without its first and
    last character, or [null] when the response has no entity tag or one
    whose value is empty. *)
Theorem exists_flag_and_revision this id (w : world S) r d :
  (serve (remote w) (probe_request this id)).1 = NetResponse r ->
  parsed_body r = Normal d ->
  ∃ args,
    exists_ serve this id mret w
      = (Normal args, after serve w (probe_request this id)) ∧
    (arg 1 args = VBool true ↔ statusCode r = 200) ∧
    (truthy (arg 0 args) = false ↔ statusCode r < 300 ∨ statusCode r = 404) ∧
    (truthy (arg 0 args) = false ->
       args = [VNull; VBool (statusCode r =? 200); revision_of r]) ∧
    (∀ e, headers r !! "etag" = Some e -> e ≠ "" ->
       revision_of r = VStr (strip_ends e)) ∧
    (headers r !! "etag" = Some "" -> revision_of r = VNull) ∧
    (headers r !! "etag" = None -> revision_of r = VNull).
Proof.
  intros Hev Hd. rewrite exists_run, Hev. simpl. rewrite Hd.
  assert (Hrev0 : headers r !! "etag" = Some "" -> revision_of r = VNull).
  { intros He. unfold revision_of. by rewrite He. }
  assert (Hrev1 : ∀ e, headers r !! "etag" = Some e -> e ≠ "" ->
            revision_of r = VStr (strip_ends e)).
  { intros e He Hne. unfold revision_of. rewrite He.
    destruct (String.eqb_spec e ""); [contradiction|reflexivity]. }
  assert (Hrev2 : headers r !! "etag" = None -> revision_of r = VNull).
  { intros He. unfold revision_of. by rewrite He. }
  destruct ((300 <=? statusCode r) && negb (statusCode r =? 404)) eqn:Hc.
  - eexists. split; [reflexivity|]. unfold arg. simpl.
    rewrite outcome_error_truthy.
    repeat split; try done; try lia.
  - eexists. split; [reflexivity|]. unfold arg. simpl.
    repeat split; try done; try lia.
    + intros [= Hb]. lia.
    + intros ->. reflexivity.
Qed.

(** C5, as amended: a 404 is not surfaced as an error: the probe hands over
    [exists = false] with the revision of the response, which is [null] when
    the 404 carries no entity tag; every other status of 300 or more, and
    every failure of the transport, is handed over as an error. *)
Theorem exists_surfaces_errors this id (w : world S) :
  let q := probe_request this id in
  (∀ r d,
     (serve (remote w) q).1 = NetResponse r ->
     parsed_body r = Normal d ->
     (statusCode r = 404 ->
        exists_ serve this id mret w
          = (Normal [VNull; VBool false; revision_of r], after serve w q) ∧
        (headers r !! "etag" = None ->
           exists_ serve this id mret w
             = (Normal [VNull; VBool false; VNull], after serve w q))) ∧
     (300 ≤ statusCode r -> statusCode r ≠ 404 ->
        ∃ err,
          exists_ serve this id mret w = (Normal [err], after serve w q) ∧
          truthy err = true ∧
          err = outcome_error (heap w) r d)) ∧
  (∀ message,
     (serve (remote w) q).1 = NetError message ->
     exists_ serve this id mret w
       = (Normal [VError (VStr message) []], after serve w q)).
Proof.
  intros q. split.
  - intros r d Hev Hd. rewrite exists_run. fold q. rewrite Hev. simpl.
    rewrite Hd. split.
    + intros Hs. rewrite Hs. simpl. split; [reflexivity|].
      intros He. unfold revision_of. by rewrite He.
    + intros Hs Hne. exists (outcome_error (heap w) r d).
      replace ((300 <=? statusCode r) && negb (statusCode r =? 404))
        with true by lia.
      rewrite outcome_error_truthy. repeat split. lia.
  - intros message Hev. rewrite exists_run. fold q. by rewrite Hev.
Qed.

(** ** The store and the log of requests *)

Lemma get_field_set_field k v fs : get_field (set_field k v fs) k = v.
Proof.
  induction fs as [|[k' v'] fs IH]; simpl.
  - by rewrite String.eqb_refl.
  - destruct (String.eqb k' k) eqn:E; simpl.
    + by rewrite String.eqb_refl.
    + by rewrite E.
Qed.

Lemma get_field_set_field_ne k k' v fs :
  k ≠ k' -> get_field (set_field k v fs) k' = get_field fs k'.
Proof.
  intros Hne. induction fs as [|[k0 v0] fs IH]; simpl.
  - destruct (String.eqb_spec k k'); [contradiction|reflexivity].
  - destruct (String.eqb_spec k0 k) as [->|Hk]; simpl.
    + destruct (String.eqb_spec k k'); [contradiction|reflexivity].
    + by rewrite IH.
Qed.

Lemma field_store_set (h : store) doc k v :
  field (store_set doc k v h) (VRef doc) k = v.
Proof.
  unfold field, store_set. simpl. rewrite lookup_insert_eq. simpl.
  apply get_field_set_field.
Qed.

Lemma field_store_set_ne (h : store) doc k k' v :
  k ≠ k' -> field (store_set doc k v h) (VRef doc) k' = field h (VRef doc) k'.
Proof.
  intros Hne. unfold field, store_set. simpl. rewrite lookup_insert_eq. simpl.
  by apply get_field_set_field_ne.
Qed.

Lemma respond_sent {R} ev (k : callback S R) (w : world S) :
  (∀ args w', sent (k args w').2 = sent w') ->
  sent (respond ev k w).2 = sent w.
Proof.
  intros Hk. rewrite respond_eq. destruct (respond_result _ _); [apply Hk|done].
Qed.

Lemma save_written_sent doc args (w : world S) :
  sent (save_written doc mret args w).2 = sent w.
Proof.
  unfold save_written. munfold.
  destruct (truthy (arg 0 args)); [done|].
  destruct (get_prop (heap w) (arg 1 args) "id"); [|done]. simpl.
  destruct (get_prop _ (arg 1 args) "rev"); done.
Qed.

Lemma save_client_request this id doc (h : store) o :
  JSON_stringify h (VRef doc) = Normal o ->
  client_request this (if opt_truthy id then "PUT" else "POST") (or_empty id)
    (VRef doc) h = Normal (save_request this id o).
Proof.
  intros Ho. unfold client_request, save_request.
  destruct (opt_truthy id); simpl; by rewrite Ho.
Qed.

Lemma save_request_body this id o :
  String.concat "" (req_body (save_request this id o)) = or_empty o.
Proof.
  unfold save_request, build_request. cbn [req_body].
  destruct (opt_truthy id); destruct o as [[|c s]|]; reflexivity.
Qed.

Lemma save_force_eq {R} this id doc options (k : callback S R) (w w1 : world S) args :
  truthy (get_field options "force") = true ->
  exists_ serve this id mret w = (Normal args, w1) ->
  save serve this id doc (Some options) k w =
  if truthy (arg 0 args) then k [arg 0 args] w1
  else
    client serve this (if opt_truthy id then "PUT" else "POST") (or_empty id)
      (VRef doc) (save_written doc k)
      (if truthy (arg 1 args)
       then {| heap := store_set doc "_rev" (arg 2 args) (heap w1);
               remote := remote w1; sent := sent w1 |}
       else w1).
Proof.
  intros Hf Hp. unfold save. simpl. rewrite Hf, exists_bind, Hp.
  destruct (truthy (arg 0 args)); [reflexivity|].
  munfold. by destruct (truthy (arg 1 args)).
Qed.

(** C1: when [save] is called with [options.force] set and the probe reports
    that the document exists with revision [R], the document's revision field
    is [R] when the write is serialized, whatever it was before the call, and
    the log of requests is the probe followed by the write with that
    serialization as its body (the document being one that serializes); when
    the probe hands over an error, [save] hands that error to its callback and
    the probe is the only request sent. *)
Theorem save_force_stamps_revision this id doc options (w w1 : world S) args :
  truthy (get_field options "force") = true ->
  exists_ serve this id mret w = (Normal args, w1) ->
  (∀ R o,
     args = [VNull; VBool true; R] ->
     JSON_stringify (store_set doc "_rev" R (heap w)) (VRef doc) = Normal o ->
     field (store_set doc "_rev" R (heap w)) (VRef doc) "_rev" = R ∧
     sent (save serve this id doc (Some options) mret w).2
       = sent w ++ [probe_request this id; save_request this id o] ∧
     String.concat "" (req_body (save_request this id o)) = or_empty o) ∧
  (truthy (arg 0 args) = true ->
     save serve this id doc (Some options) mret w = (Normal [arg 0 args], w1) ∧
     sent w1 = sent w ++ [probe_request this id]).
Proof.
  intros Hf Hp. rewrite (save_force_eq _ _ _ _ _ _ _ _ Hf Hp).
  rewrite exists_run in Hp. injection Hp as Hres Hw1. subst w1.
  split.
  - intros R o -> Ho. split; [apply field_store_set|].
    split; [|apply save_request_body].
    unfold arg. simpl.
    rewrite client_eq. simpl. rewrite (save_client_request _ _ _ _ _ Ho).
    rewrite respond_sent by apply save_written_sent.
    simpl. by rewrite <- app_assoc.
  - intros ->. done.
Qed.


Lemma client_run_sent this method path data (w : world S) q :
  client_request this method path data (heap w) = Normal q ->
  sent (client serve this method path data mret w).2 = sent w ++ [q].
Proof. intros Hq. by rewrite client_run, Hq. Qed.

Lemma delete_client_request this id args (h : store) :
  client_request this "DELETE" (or_empty id) (VObj args) h
  = Normal (delete_request this id args h).
Proof. reflexivity. Qed.

Lemma delete_force_eq {R} this id rev options (k : callback S R) (w w1 : world S) args :
  truthy (get_field options "force") = true ->
  exists_ serve this id mret w = (Normal args, w1) ->
  delete serve this id rev (Some options) k w =
  if truthy (arg 0 args) then k [arg 0 args] w1
  else
    client serve this "DELETE" (or_empty id)
      (VObj (if truthy (arg 1 args)
             then set_field "rev" (arg 2 args) (delete_args rev)
             else delete_args rev)) k w1.
Proof.
  intros Hf Hp. unfold delete. simpl. rewrite Hf, exists_bind, Hp.
  by destruct (truthy (arg 0 args)).
Qed.

(** C6: when [save] or [delete] is called with [options.force] set and the
    probe reports, without an error, that the document does not exist, the
    request that follows the probe is the one built from what the caller
    supplied: for [save] a [PUT] or [POST] of the document's path whose body
    is the serialization of the document in the store as it was at the call,
    for [delete] a [DELETE] whose path ends in the query string of the
    caller's revision; in both cases the very request that the call without
    [force] sends. *)
Theorem force_without_document_keeps_revision this id doc rev options
    (w w1 : world S) R :
  truthy (get_field options "force") = true ->
  exists_ serve this id mret w = (Normal [VNull; VBool false; R], w1) ->
  (∀ o,
     JSON_stringify (heap w) (VRef doc) = Normal o ->
     sent (save serve this id doc (Some options) mret w).2
       = sent w ++ [probe_request this id; save_request this id o] ∧
     sent (save serve this id doc None mret w).2
       = sent w ++ [save_request this id o] ∧
     req_method (save_request this id o)
       = (if opt_truthy id then "PUT" else "POST") ∧
     req_path (save_request this id o)
       = or_empty (pathname this) +:+ "/" +:+ or_empty id ∧
     String.concat "" (req_body (save_request this id o)) = or_empty o) ∧
  sent (delete serve this id rev (Some options) mret w).2
    = sent w ++ [probe_request this id;
                 delete_request this id (delete_args rev) (heap w)] ∧
  sent (delete serve this id rev None mret w).2
    = sent w ++ [delete_request this id (delete_args rev) (heap w)] ∧
  req_method (delete_request this id (delete_args rev) (heap w)) = "DELETE" ∧
  req_path (delete_request this id (delete_args rev) (heap w))
    = concat_str (pathname (url_parse
                    (or_empty (pathname this) +:+ "/" +:+ or_empty id)))
        +:+ "?" +:+ querystring_stringify (heap w) (VObj (delete_args rev)) ∧
  req_body (delete_request this id (delete_args rev) (heap w)) = [] ∧
  (truthy rev = true -> delete_args rev = [("rev", rev)]) ∧
  (truthy rev = false -> delete_args rev = []).
Proof.
  intros Hf Hp.
  rewrite (save_force_eq _ _ _ _ _ _ _ _ Hf Hp).
  rewrite (delete_force_eq _ _ _ _ _ _ _ _ Hf Hp).
  rewrite exists_run in Hp. injection Hp as Hres Hw1. subst w1.
  unfold arg. simpl. split; [|split; [|split]].
  - intros o Ho. split; [|split; [|split; [|split]]].
    + rewrite client_eq. simpl. rewrite (save_client_request _ _ _ _ _ Ho).
      rewrite respond_sent by apply save_written_sent.
      simpl. by rewrite <- app_assoc.
    + unfold save. simpl.
      by rewrite (client_run_sent _ _ _ _ _ _ (save_client_request _ _ _ _ _ Ho)).
    + reflexivity.
    + reflexivity.
    + apply (save_request_body this).
  - rewrite (client_run_sent _ _ _ _ _ _ (delete_client_request _ _ _ _)).
    simpl. by rewrite <- app_assoc.
  - unfold delete. simpl.
    by rewrite (client_run_sent _ _ _ _ _ _ (delete_client_request _ _ _ _)).
  - split; [reflexivity|]. split; [reflexivity|]. split; [reflexivity|].
    unfold delete_args. split; intros Hr; by rewrite Hr.
Qed.

Lemma ensureDB_eq {R} this (k : callback S R) (w w1 : world S) args :
  exists_ serve this (Some "") mret w = (Normal args, w1) ->
  ensureDB serve this k w =
  if truthy (arg 0 args) || truthy (arg 1 args)
  then k [arg 0 args; VCouchDB] w1
  else createDB serve this k w1.
Proof.
  intros Hp. unfold ensureDB. rewrite exists_bind, Hp.
  by destruct (truthy (arg 0 args) || truthy (arg 1 args)).
Qed.

Lemma create_client_request this (h : store) :
  client_request this "PUT" "" VNull h =
  match JSON_stringify h VNull with
  | Normal o => Normal (create_request this o)
  | Throw e => Throw e
  end.
Proof. reflexivity. Qed.

Lemma createDB_run this (w : world S) :
  createDB serve this mret w =
  match JSON_stringify (heap w) VNull with
  | Normal o =>
      (respond_result (heap w) (serve (remote w) (create_request this o)).1,
       after serve w (create_request this o))
  | Throw e => (Normal [e], w)
  end.
Proof.
  unfold createDB. rewrite client_run, create_client_request.
  by destruct (JSON_stringify (heap w) VNull).
Qed.

Lemma ensureDB_run this (w : world S) :
  ensureDB serve this mret w =
  match probe_result (heap w)
          (serve (remote w) (probe_request this (Some ""))).1 with
  | Normal args =>
      if truthy (arg 0 args) || truthy (arg 1 args)
      then (Normal [arg 0 args; VCouchDB],
            after serve w (probe_request this (Some "")))
      else createDB serve this mret (after serve w (probe_request this (Some "")))
  | Throw e => (Throw e, after serve w (probe_request this (Some "")))
  end.
Proof.
  unfold ensureDB. rewrite exists_bind, exists_run.
  destruct (probe_result _ _) as [args|e]; [|reflexivity].
  by destruct (truthy (arg 0 args) || truthy (arg 1 args)).
Qed.

Lemma outcome_error_null h r d :
  outcome_error h r d = VNull -> statusCode r < 300.
Proof.
  unfold outcome_error. destruct (Z.ltb_spec (statusCode r) 300); [done|].
  unfold database_error, status_failure.
  destruct (reports_error h d); discriminate.
Qed.

(** A call of [ensureDB] that succeeded leaves a server on which the
    database is there. *)
Lemma ensureDB_leaves_database this (db : S -> Prop) (w w1 : world S) args :
  probe_reports_database serve this db ->
  ensureDB serve this mret w = (Normal args, w1) ->
  ensured args ->
  db (remote w1).
Proof.
  intros (Hcreate & Hprobe & _) Hrun Hok.
  rewrite ensureDB_run in Hrun.
  destruct (serve (remote w) (probe_request this (Some ""))) as [ev s1] eqn:Hs.
  unfold after in Hrun. rewrite Hs in Hrun. simpl in Hrun.
  destruct ev as [message|r]; simpl in Hrun.
  { injection Hrun as <- <-. destruct Hok as [Hok|(d & r & Hok)]; discriminate. }
  destruct (parsed_body r) as [d|e]; [|discriminate].
  destruct ((300 <=? statusCode r) && negb (statusCode r =? 404)) eqn:Hc.
  { unfold arg in Hrun. simpl in Hrun. rewrite outcome_error_truthy in Hrun.
    replace (300 <=? statusCode r) with true in Hrun by lia. simpl in Hrun.
    injection Hrun as <- <-. destruct Hok as [Hok|(d' & r' & Hok)].
    - injection Hok as Hok. apply outcome_error_null in Hok. lia.
    - discriminate. }
  unfold arg in Hrun. simpl in Hrun.
  destruct (statusCode r =? 200) eqn:H200.
  { injection Hrun as <- <-. simpl. apply (Hprobe _ _ _ Hs). lia. }
  rewrite createDB_run in Hrun. simpl in Hrun.
  destruct (JSON_stringify (heap w) VNull) as [o|e].
  - destruct (serve s1 (create_request this o)) as [ev2 s2] eqn:Hs2.
    simpl in Hrun. destruct ev2 as [message|r2]; simpl in Hrun.
    { injection Hrun as <- <-. destruct Hok as [Hok|(d' & r' & Hok)]; discriminate. }
    destruct (parsed_body r2) as [d2|e2]; [|discriminate].
    injection Hrun as <- <-. simpl.
    destruct Hok as [Hok|(d' & r' & Hok)]; [discriminate|].
    injection Hok as Hok _ _. apply outcome_error_null in Hok.
    rewrite ?Hs2. simpl. by apply (Hcreate _ _ _ _ Hs2).
  - injection Hrun as <- <-. destruct Hok as [Hok|(d' & r' & Hok)]; discriminate.
Qed.

(** C7, as amended: [ensureDB] sends the probe of the root path first, a
    [HEAD] of the prefix and a slash; when the probe reports that the
    database exists or hands over an error, that outcome goes to the callback
    and the probe is the only request; otherwise the call continues as
    [createDB], whose [PUT] of the same path follows the probe.  So, against
    a server whose probe of the root path reports the database once it is
    there, a call that comes after a call that succeeded finds the database
    and succeeds with the probe as its only request: no create goes out that
    the server could refuse. *)
Theorem ensureDB_probes_before_creating this (w : world S) :
  let q := probe_request this (Some "") in
  (req_method q = "HEAD" ∧
   req_path q = or_empty (pathname this) +:+ "/" ∧
   req_body q = []) ∧
  (∃ rest, sent (ensureDB serve this mret w).2 = sent w ++ q :: rest) ∧
  (∀ args w1,
     exists_ serve this (Some "") mret w = (Normal args, w1) ->
     (truthy (arg 0 args) || truthy (arg 1 args) = true ->
        ensureDB serve this mret w = (Normal [arg 0 args; VCouchDB], w1) ∧
        sent w1 = sent w ++ [q]) ∧
     (truthy (arg 0 args) || truthy (arg 1 args) = false ->
        ensureDB serve this mret w = createDB serve this mret w1 ∧
        ∀ o, JSON_stringify (heap w) VNull = Normal o ->
             sent (ensureDB serve this mret w).2
               = sent w ++ [q; create_request this o] ∧
             req_method (create_request this o) = "PUT" ∧
             req_path (create_request this o) = req_path q ∧
             String.concat "" (req_body (create_request this o)) = or_empty o)) ∧
  (∀ (db : S -> Prop) args w1,
     probe_reports_database serve this db ->
     ensureDB serve this mret w = (Normal args, w1) ->
     ensured args ->
     db (remote w1) ∧
     ensureDB serve this mret w1 = (Normal [VNull; VCouchDB], after serve w1 q) ∧
     sent (after serve w1 q) = sent w1 ++ [q]).
Proof.
  intros q. split; [by repeat split|]. split; [|split].
  - rewrite ensureDB_run. fold q.
    destruct (probe_result _ _) as [args|e]; [|by exists []].
    destruct (truthy (arg 0 args) || truthy (arg 1 args)); [by exists []|].
    rewrite createDB_run. simpl.
    destruct (JSON_stringify (heap w) VNull) as [o|e].
    + exists [create_request this o]. simpl. by rewrite <- app_assoc.
    + by exists [].
  - intros args w1 Hp. rewrite (ensureDB_eq _ _ _ _ _ Hp).
    rewrite exists_run in Hp. injection Hp as Hres Hw1. subst w1. split.
    + intros ->. done.
    + intros ->. split; [done|]. intros o Ho.
      rewrite createDB_run. simpl. rewrite Ho. simpl.
      split; [by rewrite <- app_assoc|]. split; [reflexivity|].
      split; [reflexivity|].
      unfold create_request, build_request. cbn [req_body].
      destruct o as [[|c t]|]; reflexivity.
  - intros db args w1 Hdb Hrun Hok.
    assert (Hw1 : db (remote w1))
      by exact (ensureDB_leaves_database this db w w1 args Hdb Hrun Hok).
    split; [exact Hw1|]. split; [|reflexivity].
    destruct Hdb as (_ & _ & Hsee).
    destruct (Hsee _ Hw1) as (r & s' & Hs & H200 & Hc).
    rewrite ensureDB_run. fold q. unfold q in *. rewrite Hs. simpl.
    unfold parsed_body. rewrite Hc, H200. reflexivity.
Qed.

(** C9: when the parsed base URL has no port, the constructor stores 443 for
    the protocol [https:] and 80 for every other protocol, and the port of
    the instance is set. *)
Theorem constructor_resolves_port (db_url : string) :
  truthy (port (url_parse db_url)) = false ->
  (protocol (url_parse db_url) = Some "https:" ->
     port (CouchDB db_url) = VNum 443) ∧
  (protocol (url_parse db_url) ≠ Some "https:" ->
     port (CouchDB db_url) = VNum 80) ∧
  truthy (port (CouchDB db_url)) = true.
Proof.
  intros Hp. unfold CouchDB. rewrite Hp. simpl.
  case_bool_decide; simpl; done.
Qed.

Lemma constructor_port_set (db_url : string) :
  truthy (port (CouchDB db_url)) = true.
Proof.
  unfold CouchDB. destruct (truthy (port (url_parse db_url))) eqn:Hp; simpl.
  - done.
  - by case_bool_decide.
Qed.

(** The path of [save] without [force] is the executor and nothing else:
    the callback receives what [client] hands over, and the store is left as
    it was. *)
Lemma save_without_force_is_client {R} this id doc (k : callback S R) :
  save serve this id doc None k
  = client serve this (if opt_truthy id then "PUT" else "POST") (or_empty id)
      (VRef doc) k.
Proof. reflexivity. Qed.

Lemma client_keeps_store this method path data (w : world S) :
  heap (client serve this method path data mret w).2 = heap w.
Proof. rewrite client_run. by destruct (client_request _ _ _ _ _). Qed.

(** The force path of [save]: the document is updated in place from the
    response and handed back. *)
Lemma save_force_updates_document this id doc options (w w1 w2 : world S)
    args d res i r :
  truthy (get_field options "force") = true ->
  exists_ serve this id mret w = (Normal args, w1) ->
  truthy (arg 0 args) = false ->
  client serve this (if opt_truthy id then "PUT" else "POST") (or_empty id)
    (VRef doc) mret
    (if truthy (arg 1 args)
     then {| heap := store_set doc "_rev" (arg 2 args) (heap w1);
             remote := remote w1; sent := sent w1 |}
     else w1) = (Normal [VNull; d; res], w2) ->
  (∀ h, get_prop h d "id" = Normal i) ->
  (∀ h, get_prop h d "rev" = Normal r) ->
  save serve this id doc (Some options) mret w =
    (Normal [VNull; VRef doc],
     {| heap := store_set doc "_rev" r (store_set doc "_id" i (heap w2));
        remote := remote w2; sent := sent w2 |}).
Proof.
  intros Hf Hp He Hc Hi Hr.
  rewrite (save_force_eq _ _ _ _ _ _ _ _ Hf Hp), He, client_bind, Hc.
  unfold save_written, arg. munfold. simpl. rewrite Hi. simpl. by rewrite Hr.
Qed.

End Properties.

Section Operations.

Context `{Platform} {S : Type}.
Variable serve : S -> request -> net_event * S.

(** ** Requests on the wire *)

Lemma build_request_headers this method path data (hs : gmap string value) k :
  k ≠ "Authorization" ->
  req_headers (build_request this method path data hs) !! k = hs !! k.
Proof.
  intros Hk. unfold build_request. cbn [req_headers].
  destruct (opt_truthy (auth this)); [|reflexivity].
  by rewrite lookup_insert_ne.
Qed.

Lemma build_request_authorization this method path data (hs : gmap string value) :
  hs !! "Authorization" = None ->
  req_headers (build_request this method path data hs) !! "Authorization"
  = if opt_truthy (auth this)
    then Some (VStr ("Basic " +:+ base64 (or_empty (auth this))))
    else None.
Proof.
  intros Hn. unfold build_request. cbn [req_headers].
  destruct (opt_truthy (auth this)); [|exact Hn].
  by rewrite lookup_insert_eq.
Qed.

Lemma client_request_shape this method path data (h : store) q :
  client_request this method path data h = Normal q ->
  ∃ path' data' hs,
    q = build_request this method path' data' hs ∧
    hs = (if is_write method then json_headers this else base_headers this) ∧
    (is_write method = true -> typeof_string data' = true ∨ data' = VUndefined).
Proof.
  unfold client_request. destruct (is_write method) eqn:Hm.
  - destruct (typeof_string data) eqn:Ht; simpl.
    + intros [= <-]. eexists _, _, _. split; [reflexivity|]. split; [done|].
      by left.
    + destruct (JSON_stringify h data) as [o|e]; [|discriminate].
      intros [= <-]. eexists _, _, _. split; [reflexivity|]. split; [done|].
      intros _. destruct o; [by left|by right].
  - destruct (truthy data); intros [= <-]; eexists _, _, _;
      (split; [reflexivity|]); split; done.
Qed.

(** X1: every request that [client] sends goes to the port and host of the
    instance with the method asked for, names the host and accepts JSON,
    declares a JSON body exactly for [POST] and [PUT], and carries the basic
    credentials exactly when the instance has some. *)
Theorem client_request_headers this method path data (h : store) q :
  client_request this method path data h = Normal q ->
  req_method q = method ∧
  req_port q = port this ∧
  req_hostname q = hostname this ∧
  req_headers q !! "Host" = Some (opt_value (hostname this)) ∧
  req_headers q !! "Accept" = Some (VStr "application/json") ∧
  req_headers q !! "Content-Type"
    = (if is_write method then Some (VStr "application/json") else None) ∧
  req_headers q !! "Authorization"
    = (if opt_truthy (auth this)
       then Some (VStr ("Basic " +:+ base64 (or_empty (auth this))))
       else None).
Proof.
  intros Hq. destruct (client_request_shape _ _ _ _ _ _ Hq)
    as (path' & data' & hs & -> & -> & _).
  split; [done|]. split; [done|]. split; [done|].
  rewrite !build_request_headers by done.
  rewrite build_request_authorization
    by (destruct (is_write method); done).
  unfold json_headers, base_headers.
  destruct (is_write method); done.
Qed.

(** X2: a request that is neither [POST] nor [PUT] never has a body and is
    always sent, whatever the payload, which [JSON.stringify] never sees: a
    truthy payload goes into the query string behind the pathname, and
    without one the path is the prefix and the segment as they are. *)
Theorem read_request_has_no_body this method path data (w : world S) :
  is_write method = false ->
  ∃ q,
    client_request this method path data (heap w) = Normal q ∧
    req_body q = [] ∧
    sent (client serve this method path data mret w).2 = sent w ++ [q] ∧
    (truthy data = false ->
       req_path q = or_empty (pathname this) +:+ "/" +:+ path) ∧
    (truthy data = true ->
       req_path q
       = concat_str (pathname (url_parse (or_empty (pathname this) +:+ "/" +:+ path)))
           +:+ "?" +:+ querystring_stringify (heap w) data).
Proof.
  intros Hm.
  assert (Hq : ∃ q, client_request this method path data (heap w) = Normal q ∧
                    req_body q = [] ∧
                    (truthy data = false ->
                       req_path q = or_empty (pathname this) +:+ "/" +:+ path) ∧
                    (truthy data = true ->
                       req_path q
                       = concat_str (pathname (url_parse
                                       (or_empty (pathname this) +:+ "/" +:+ path)))
                           +:+ "?" +:+ querystring_stringify (heap w) data)).
  { unfold client_request. rewrite Hm.
    destruct (truthy data); eexists; (split; [reflexivity|]);
      unfold build_request; cbn [req_body req_path]; rewrite Hm, andb_false_r;
      split; done. }
  destruct Hq as (q & Hq & Hb & Hp1 & Hp2). exists q.
  split; [exact Hq|]. split; [exact Hb|]. split; [|by split].
  by rewrite client_run, Hq.
Qed.

(** X3: when [JSON.parse] rejects the body of a response, the exception
    leaves the [end] handler uncaught: the request has gone out and the
    callback is never called, whatever the status. *)
Theorem client_parse_failure {R} this method path data (k : callback S R)
    (w : world S) q r e :
  client_request this method path data (heap w) = Normal q ->
  (serve (remote w) q).1 = NetResponse r ->
  parsed_body r = Throw e ->
  client serve this method path data k w = (Throw e, after serve w q).
Proof.
  intros Hq Hev Hb. rewrite client_eq, Hq, Hev. simpl. by apply on_end_throw.
Qed.

(** ** [createDB] and [get] *)

(** X4: [createDB] sends one [PUT] to the root path of the database, whose
    body is what [JSON.stringify] makes of [null], and hands the outcome of
    the executor to its callback. *)
Theorem createDB_puts_root this (w : world S) o :
  JSON_stringify (heap w) VNull = Normal o ->
  let q := create_request this o in
  createDB serve this mret w
    = (respond_result (heap w) (serve (remote w) q).1, after serve w q) ∧
  req_method q = "PUT" ∧
  req_path q = or_empty (pathname this) +:+ "/" ∧
  String.concat "" (req_body q) = or_empty o.
Proof.
  intros Ho q. unfold createDB.
  rewrite client_run, create_client_request, Ho.
  split; [reflexivity|]. split; [reflexivity|]. split.
  - reflexivity.
  - unfold q, create_request, build_request. cbn [req_body].
    destruct o as [[|c s]|]; reflexivity.
Qed.

(** X5: [get] sends one [GET] without a body and hands the outcome of the
    executor to its callback; called without query data it asks for the
    document's path as it is, and with an object it appends the query
    string. *)
Theorem get_sends_one_request this id data (w : world S) :
  ∃ q,
    get serve this id data mret w
      = (respond_result (heap w) (serve (remote w) q).1, after serve w q) ∧
    req_method q = "GET" ∧
    req_body q = [] ∧
    (truthy (default VNull data) = false ->
       req_path q = or_empty (pathname this) +:+ "/" +:+ or_empty id) ∧
    (truthy (default VNull data) = true ->
       req_path q
       = concat_str (pathname (url_parse
                       (or_empty (pathname this) +:+ "/" +:+ or_empty id)))
           +:+ "?" +:+ querystring_stringify (heap w) (default VNull data)).
Proof.
  unfold get. rewrite client_run. unfold client_request.
  change (is_write "GET") with false. cbv iota.
  destruct (truthy (default VNull data)) eqn:Ht; eexists;
    (split; [reflexivity|]); repeat split; try done;
    unfold build_request; cbn [req_body]; by rewrite andb_false_r.
Qed.

(** ** Options and the force path of [delete] *)

(** [force] is the only option: with options in which [force] is not set,
    [save] and [delete] behave as they do without options. *)
Lemma options_without_force {R} this id doc rev options (k : callback S R) :
  truthy (get_field options "force") = false ->
  save serve this id doc (Some options) k = save serve this id doc None k ∧
  delete serve this id rev (Some options) k = delete serve this id rev None k.
Proof. intros Hf. unfold save, delete. simpl. by rewrite Hf. Qed.

Lemma set_rev_delete_args R rev :
  set_field "rev" R (delete_args rev) = [("rev", R)].
Proof. unfold delete_args. by destruct (truthy rev). Qed.

(** X6: when [delete] is called with [options.force] set and the probe
    reports that the document exists with revision [R], the request that
    follows the probe carries [R] as its only query argument, whatever
    revision the caller gave, and [delete] hands over what the executor
    hands over for it. *)
Theorem delete_force_uses_probe_revision this id rev options
    (w w1 : world S) R :
  truthy (get_field options "force") = true ->
  exists_ serve this id mret w = (Normal [VNull; VBool true; R], w1) ->
  delete serve this id rev (Some options) mret w
    = client serve this "DELETE" (or_empty id) (VObj [("rev", R)]) mret w1 ∧
  sent (delete serve this id rev (Some options) mret w).2
    = sent w ++ [probe_request this id;
                 delete_request this id [("rev", R)] (heap w)].
Proof.
  intros Hf Hp. rewrite (delete_force_eq _ _ _ _ _ _ _ _ _ Hf Hp).
  rewrite exists_run in Hp. injection Hp as Hres Hw1. subst w1.
  unfold arg. simpl. rewrite set_rev_delete_args. split; [reflexivity|].
  rewrite (client_run_sent _ _ _ _ _ _ _ (delete_client_request _ _ _ _)).
  simpl. by rewrite <- app_assoc.
Qed.

(** X7: when the probe of a forced [delete] hands over an error, [delete]
    hands that error to its callback and the probe is the only request. *)
Theorem delete_force_probe_error this id rev options (w w1 : world S) args :
  truthy (get_field options "force") = true ->
  exists_ serve this id mret w = (Normal args, w1) ->
  truthy (arg 0 args) = true ->
  delete serve this id rev (Some options) mret w = (Normal [arg 0 args], w1) ∧
  sent w1 = sent w ++ [probe_request this id].
Proof.
  intros Hf Hp He. rewrite (delete_force_eq _ _ _ _ _ _ _ _ _ Hf Hp), He.
  rewrite exists_run in Hp. injection Hp as Hres Hw1. subst w1. done.
Qed.

(** ** What an operation does to the store and to the log *)

Lemma same_except_refl doc (h : store) : same_except doc h h.
Proof. by split. Qed.

Lemma same_except_trans doc (h1 h2 h3 : store) :
  same_except doc h1 h2 -> same_except doc h2 h3 -> same_except doc h1 h3.
Proof.
  intros [Ha Hb] [Hc Hd]. split.
  - intros l Hl. by rewrite Hc, Ha.
  - intros k Hi Hr. by rewrite Hd, Hb.
Qed.

Lemma same_except_set doc k v (h : store) :
  k = "_id" ∨ k = "_rev" -> same_except doc h (store_set doc k v h).
Proof.
  intros Hk. split.
  - intros l Hl. unfold store_set. by rewrite lookup_insert_ne.
  - intros k' Hi Hr. apply field_store_set_ne. destruct Hk; congruence.
Qed.

Lemma grows_by_refl (n : nat) (w : world S) : grows_by n w w.
Proof. exists []. split; [by rewrite app_nil_r|simpl; lia]. Qed.

Lemma grows_by_step (n : nat) (w w1 w2 : world S) q :
  sent w1 = sent w ++ [q] -> grows_by n w1 w2 -> grows_by (Datatypes.S n) w w2.
Proof.
  intros H1 (l & H2 & Hl). exists (q :: l). split.
  - rewrite H2, H1, <- app_assoc. reflexivity.
  - simpl. lia.
Qed.

Lemma grows_by_le (n m : nat) (w w' : world S) :
  (n ≤ m)%nat -> grows_by n w w' -> grows_by m w w'.
Proof. intros Hnm (l & Hl & Hn). exists l. split; [done|lia]. Qed.

Lemma grows_by_sent (n : nat) (w w1 w2 : world S) :
  sent w1 = sent w -> grows_by n w1 w2 -> grows_by n w w2.
Proof. intros H1 (l & H2 & Hl). exists l. by rewrite H2, H1. Qed.

Lemma client_effect this method path data (w : world S) :
  heap (client serve this method path data mret w).2 = heap w ∧
  grows_by 1 w (client serve this method path data mret w).2.
Proof.
  rewrite client_run. destruct (client_request _ _ _ _ _) as [q|e]; simpl.
  - split; [done|]. exists [q]. by split.
  - split; [done|]. apply grows_by_refl.
Qed.

Lemma exists_effect this id (w : world S) :
  heap (exists_ serve this id mret w).2 = heap w ∧
  sent (exists_ serve this id mret w).2 = sent w ++ [probe_request this id].
Proof. by rewrite exists_run. Qed.

Lemma save_written_effect doc args (w : world S) :
  same_except doc (heap w) (heap (save_written doc mret args w).2) ∧
  sent (save_written doc mret args w).2 = sent w.
Proof.
  split; [|apply save_written_sent].
  unfold save_written. munfold.
  destruct (truthy (arg 0 args)); [apply same_except_refl|].
  destruct (get_prop (heap w) (arg 1 args) "id") as [i|e];
    [|apply same_except_refl]. simpl.
  destruct (get_prop _ (arg 1 args) "rev") as [r|e]; simpl.
  - eapply same_except_trans; apply same_except_set; auto.
  - apply same_except_set. auto.
Qed.

Lemma stamped_effect doc args (w1 : world S) :
  same_except doc (heap w1) (heap (stamped doc args w1)) ∧
  sent (stamped doc args w1) = sent w1 ∧
  remote (stamped doc args w1) = remote w1.
Proof.
  unfold stamped. destruct (truthy (arg 1 args)); simpl.
  - split; [apply same_except_set; auto|done].
  - split; [apply same_except_refl|done].
Qed.

Lemma save_not_forced {R} this id doc options (k : callback S R) :
  truthy (get_field (default [] options) "force") = false ->
  save serve this id doc options k
  = client serve this (if opt_truthy id then "PUT" else "POST") (or_empty id)
      (VRef doc) k.
Proof. intros Hf. unfold save. by rewrite Hf. Qed.

Lemma save_force_run {R} this id doc options (k : callback S R) (w : world S) :
  truthy (get_field options "force") = true ->
  save serve this id doc (Some options) k w =
  match exists_ serve this id mret w with
  | (Normal args, w1) =>
      if truthy (arg 0 args) then k [arg 0 args] w1
      else client serve this (if opt_truthy id then "PUT" else "POST")
             (or_empty id) (VRef doc) (save_written doc k) (stamped doc args w1)
  | (Throw e, w1) => (Throw e, w1)
  end.
Proof.
  intros Hf. destruct (exists_ serve this id mret w) as [[args|e] w1] eqn:Hp.
  - by rewrite (save_force_eq _ _ _ _ _ _ _ _ _ Hf Hp).
  - unfold save. simpl. by rewrite Hf, exists_bind, Hp.
Qed.

Lemma save_effect this id doc options (w : world S) :
  same_except doc (heap w) (heap (save serve this id doc options mret w).2) ∧
  grows_by 2 w (save serve this id doc options mret w).2.
Proof.
  destruct (truthy (get_field (default [] options) "force")) eqn:Hf.
  - destruct options as [options|]; [|discriminate]. simpl in Hf.
    rewrite (save_force_run _ _ _ _ _ _ Hf), exists_run.
    set (w1 := after serve w (probe_request this id)).
    assert (Hw1 : sent w1 = sent w ++ [probe_request this id]) by done.
    destruct (probe_result _ _) as [args|e].
    + destruct (truthy (arg 0 args)).
      * split; [apply same_except_refl|].
        eapply grows_by_step; [exact Hw1|apply grows_by_refl].
      * destruct (stamped_effect doc args w1) as (Hh & Hs & _).
        rewrite client_bind.
        destruct (client_effect this (if opt_truthy id then "PUT" else "POST")
                    (or_empty id) (VRef doc) (stamped doc args w1)) as [Hc1 Hc2].
        destruct (client serve this _ _ _ mret (stamped doc args w1))
          as [[a|e] w2]; simpl in Hc1, Hc2.
        -- destruct (save_written_effect doc a w2) as [Hw Hsw]. split.
           ++ eapply same_except_trans; [exact Hh|]. by rewrite <- Hc1.
           ++ eapply grows_by_step; [exact Hw1|].
              eapply grows_by_sent; [exact Hs|].
              destruct Hc2 as (l & Hl & Hn). exists l. by rewrite Hsw.
        -- simpl. split; [by rewrite Hc1|].
           eapply grows_by_step; [exact Hw1|].
           eapply grows_by_sent; [exact Hs|exact Hc2].
    + split; [apply same_except_refl|].
      eapply grows_by_step; [exact Hw1|apply grows_by_refl].
  - rewrite (save_not_forced _ _ _ _ _ Hf).
    destruct (client_effect this (if opt_truthy id then "PUT" else "POST")
                (or_empty id) (VRef doc) w) as [Hc1 Hc2].
    split.
    + rewrite Hc1. apply same_except_refl.
    + eapply grows_by_le; [|exact Hc2]. lia.
Qed.

Lemma delete_effect this id rev options (w : world S) :
  heap (delete serve this id rev options mret w).2 = heap w ∧
  grows_by 2 w (delete serve this id rev options mret w).2.
Proof.
  unfold delete.
  destruct (truthy (get_field (default [] options) "force")).
  - rewrite exists_bind, exists_run.
    set (w1 := after serve w (probe_request this id)).
    assert (Hw1 : sent w1 = sent w ++ [probe_request this id]) by done.
    destruct (probe_result _ _) as [args|e].
    + destruct (truthy (arg 0 args)).
      * split; [done|].
        eapply grows_by_step; [exact Hw1|apply grows_by_refl].
      * match goal with
        | |- context [client serve this ?m ?p ?d mret w1] =>
            destruct (client_effect this m p d w1) as [Hc1 Hc2]
        end.
        split; [by rewrite Hc1|].
        eapply grows_by_step; [exact Hw1|exact Hc2].
    + split; [done|].
      eapply grows_by_step; [exact Hw1|apply grows_by_refl].
  - match goal with
    | |- context [client serve this ?m ?p ?d mret w] =>
        destruct (client_effect this m p d w) as [Hc1 Hc2]
    end.
    split; [exact Hc1|]. eapply grows_by_le; [|exact Hc2]. lia.
Qed.

Lemma ensureDB_effect this (w : world S) :
  heap (ensureDB serve this mret w).2 = heap w ∧
  grows_by 2 w (ensureDB serve this mret w).2.
Proof.
  unfold ensureDB. rewrite exists_bind, exists_run.
  set (w1 := after serve w (probe_request this (Some ""))).
  assert (Hw1 : sent w1 = sent w ++ [probe_request this (Some "")]) by done.
  destruct (probe_result _ _) as [args|e].
  - destruct (truthy (arg 0 args) || truthy (arg 1 args)).
    + split; [done|].
      eapply grows_by_step; [exact Hw1|apply grows_by_refl].
    + unfold createDB.
      destruct (client_effect this "PUT" "" VNull w1) as [Hc1 Hc2].
      split; [by rewrite Hc1|].
      eapply grows_by_step; [exact Hw1|exact Hc2].
  - split; [done|].
    eapply grows_by_step; [exact Hw1|apply grows_by_refl].
Qed.

(** X8: no operation but [save] writes to the store: after [client],
    [exists], [get], [createDB], [ensureDB] and [delete], with or without
    [force], every object is as it was, whatever the server answers. *)
Theorem operations_keep_store this method path payload id data rev options
    (w : world S) :
  heap (client serve this method path payload mret w).2 = heap w ∧
  heap (exists_ serve this id mret w).2 = heap w ∧
  heap (get serve this id data mret w).2 = heap w ∧
  heap (createDB serve this mret w).2 = heap w ∧
  heap (ensureDB serve this mret w).2 = heap w ∧
  heap (delete serve this id rev options mret w).2 = heap w.
Proof.
  split; [apply client_effect|]. split; [apply exists_effect|].
  split; [apply client_effect|]. split; [apply client_effect|].
  split; [apply ensureDB_effect|apply delete_effect].
Qed.

(** X9: whatever the options and the answers of the server, [save] leaves
    every other object of the store as it was and changes no field of the
    document but its identifier and its revision. *)
Theorem save_changes_only_id_and_rev this id doc options (w : world S) :
  same_except doc (heap w) (heap (save serve this id doc options mret w).2).
Proof. apply save_effect. Qed.

(** X10: an operation only appends to the log of requests, and never retries:
    [client], [exists], [get] and [createDB] send at most one request, [save],
    [delete] and [ensureDB] at most two, whatever the server answers. *)
Theorem operations_send_at_most_two_requests this method path payload id doc
    data rev options (w : world S) :
  grows_by 1 w (client serve this method path payload mret w).2 ∧
  grows_by 1 w (exists_ serve this id mret w).2 ∧
  grows_by 1 w (get serve this id data mret w).2 ∧
  grows_by 1 w (createDB serve this mret w).2 ∧
  grows_by 2 w (ensureDB serve this mret w).2 ∧
  grows_by 2 w (save serve this id doc options mret w).2 ∧
  grows_by 2 w (delete serve this id rev options mret w).2.
Proof.
  split; [apply client_effect|]. split.
  { exists [probe_request this id]. split; [apply exists_effect|done]. }
  split; [apply client_effect|]. split; [apply client_effect|].
  split; [apply ensureDB_effect|]. split; [apply save_effect|apply delete_effect].
Qed.

(** ** Edges of the probe and of the force path *)

Lemma drop_last_append c (s : string) :
  drop_last (s +:+ String c EmptyString) = s.
Proof.
  induction s as [|a s IH]; [reflexivity|].
  change (String a s +:+ String c EmptyString)
    with (String a (s +:+ String c EmptyString)).
  destruct s as [|b s]; [reflexivity|].
  change (String b s +:+ String c EmptyString)
    with (String b (s +:+ String c EmptyString)) in *.
  cbn [drop_last]. cbn [drop_last] in IH. by rewrite IH.
Qed.

Lemma strip_ends_quoted (s : string) : strip_ends (quoted s) = s.
Proof. apply drop_last_append. Qed.

(** X11: an entity tag that is a revision between two quotes gives that
    revision back, also when the revision is empty: a probe answered by 200
    with such a tag hands over [exists = true] and the revision. *)
Theorem exists_entity_tag_round_trip this id (w : world S) r d s :
  (serve (remote w) (probe_request this id)).1 = NetResponse r ->
  parsed_body r = Normal d ->
  statusCode r = 200 ->
  headers r !! "etag" = Some (quoted s) ->
  rev_of_etag (VStr (quoted s)) = Normal (VStr s) ∧
  exists_ serve this id mret w
    = (Normal [VNull; VBool true; VStr s],
       after serve w (probe_request this id)).
Proof.
  intros Hev Hd Hs He. split.
  - unfold rev_of_etag.
    change (truthy (VStr (quoted s))) with true. cbv iota.
    by rewrite substr_strip_ends, strip_ends_quoted.
  - rewrite exists_run, Hev. simpl. rewrite Hd, Hs. simpl.
    unfold revision_of. rewrite He.
    change (String.eqb (quoted s) "") with false. cbv iota.
    by rewrite strip_ends_quoted.
Qed.

Lemma parsed_body_empty (r : response) : chunks r = [] -> parsed_body r = Normal VNull.
Proof. intros Hc. unfold parsed_body. by rewrite Hc. Qed.

(** X12: on the force path, a write that the server answers with a status
    below 300 and an empty body does not reach the callback of [save]: the
    body is [null], reading its [id] throws, and the exception is uncaught
    after both requests have gone out. *)
Theorem save_force_empty_response_throws this id doc options
    (w w1 : world S) args o r :
  truthy (get_field options "force") = true ->
  exists_ serve this id mret w = (Normal args, w1) ->
  truthy (arg 0 args) = false ->
  JSON_stringify (heap (stamped doc args w1)) (VRef doc) = Normal o ->
  (serve (remote w1) (save_request this id o)).1 = NetResponse r ->
  statusCode r < 300 ->
  chunks r = [] ->
  save serve this id doc (Some options) mret w
    = (Throw TypeError,
       after serve (stamped doc args w1) (save_request this id o)) ∧
  sent (save serve this id doc (Some options) mret w).2
    = sent w ++ [probe_request this id; save_request this id o].
Proof.
  intros Hf Hp He Ho Hev Hs Hc.
  assert (Hrun : save serve this id doc (Some options) mret w
                 = (Throw TypeError,
                    after serve (stamped doc args w1) (save_request this id o))).
  { rewrite (save_force_run _ _ _ _ _ _ Hf), Hp, He, client_eq.
    rewrite (save_client_request _ _ _ _ _ Ho).
    destruct (stamped_effect doc args w1) as (_ & _ & Hr). rewrite Hr, Hev.
    simpl. rewrite (on_end_normal _ _ _ _ (parsed_body_empty r Hc)).
    unfold save_written, arg, outcome_error. simpl.
    by replace (statusCode r <? 300) with true by lia. }
  split; [exact Hrun|]. rewrite Hrun. simpl.
  destruct (stamped_effect doc args w1) as (_ & -> & _).
  rewrite exists_run in Hp. injection Hp as _ <-. simpl.
  by rewrite <- app_assoc.
Qed.

(** X13: [save] with [force] and without an id probes the root path of the
    database, as [ensureDB] does; when that probe is answered by 200 without
    an entity tag, the revision of the document is set to [null] and the
    document goes out in a [POST] so serialized. *)
Theorem save_force_without_id_probes_root this id doc options (w : world S)
    r d o :
  opt_truthy id = false ->
  truthy (get_field options "force") = true ->
  (serve (remote w) (probe_request this (Some ""))).1 = NetResponse r ->
  parsed_body r = Normal d ->
  statusCode r = 200 ->
  headers r !! "etag" = None ->
  JSON_stringify (store_set doc "_rev" VNull (heap w)) (VRef doc) = Normal o ->
  probe_request this id = probe_request this (Some "") ∧
  field (store_set doc "_rev" VNull (heap w)) (VRef doc) "_rev" = VNull ∧
  req_method (save_request this id o) = "POST" ∧
  sent (save serve this id doc (Some options) mret w).2
    = sent w ++ [probe_request this (Some ""); save_request this id o].
Proof.
  intros Hid Hf Hev Hd Hs He Ho.
  assert (Hq : probe_request this id = probe_request this (Some "")).
  { unfold probe_request. destruct id as [[|c s]|]; done. }
  split; [exact Hq|]. split; [apply field_store_set|].
  split; [unfold save_request, build_request; cbn [req_method]; by rewrite Hid|].
  rewrite (save_force_run _ _ _ _ _ _ Hf), exists_run, Hq, Hev. simpl.
  rewrite Hd, Hs. simpl. unfold revision_of. rewrite He.
  unfold stamped, arg. simpl.
  rewrite client_eq. simpl. rewrite (save_client_request _ _ _ _ _ Ho).
  rewrite respond_sent by apply save_written_sent.
  simpl. by rewrite <- app_assoc.
Qed.

(** X14: on the force path, a write that the server answers with a status
    below 300 and a JSON object hands the document itself to the callback,
    with its identifier and revision set from the [id] and [rev] of that
    object, [undefined] for the one that is missing. *)
Theorem save_force_returns_updated_document this id doc options
    (w w1 : world S) args o r fs :
  truthy (get_field options "force") = true ->
  exists_ serve this id mret w = (Normal args, w1) ->
  truthy (arg 0 args) = false ->
  JSON_stringify (heap (stamped doc args w1)) (VRef doc) = Normal o ->
  (serve (remote w1) (save_request this id o)).1 = NetResponse r ->
  statusCode r < 300 ->
  parsed_body r = Normal (VObj fs) ->
  let run := save serve this id doc (Some options) mret w in
  run.1 = Normal [VNull; VRef doc] ∧
  field (heap run.2) (VRef doc) "_id" = get_field fs "id" ∧
  field (heap run.2) (VRef doc) "_rev" = get_field fs "rev".
Proof.
  intros Hf Hp He Ho Hev Hs Hd run.
  assert (Hrun : run
    = (Normal [VNull; VRef doc],
       {| heap := store_set doc "_rev" (get_field fs "rev")
                    (store_set doc "_id" (get_field fs "id")
                       (heap (stamped doc args w1)));
          remote := (serve (remote w1) (save_request this id o)).2;
          sent := sent (stamped doc args w1) ++ [save_request this id o] |})).
  { unfold run.
    rewrite (save_force_run _ _ _ _ _ _ Hf), Hp, He, client_eq.
    rewrite (save_client_request _ _ _ _ _ Ho).
    destruct (stamped_effect doc args w1) as (_ & _ & Hr).
    unfold after. rewrite Hr, Hev.
    simpl. rewrite (on_end_normal _ _ _ _ Hd).
    unfold save_written, arg, outcome_error. simpl.
    by replace (statusCode r <? 300) with true by lia. }
  rewrite Hrun. simpl. split; [reflexivity|]. split.
  - rewrite field_store_set_ne by done. apply field_store_set.
  - apply field_store_set.
Qed.

(** X15: a client made by the module's entry point sends every request to
    the host of the base URL and to a port that is set: the port of the URL
    when it has one, 443 or 80 otherwise. *)
Theorem exports_requests_reach_resolved_port db_url method path data
    (h : store) q :
  client_request (exports db_url) method path data h = Normal q ->
  truthy (req_port q) = true ∧
  req_hostname q = hostname (url_parse db_url) ∧
  (truthy (port (url_parse db_url)) = true ->
     req_port q = port (url_parse db_url)) ∧
  (truthy (port (url_parse db_url)) = false ->
     req_port q = VNum (if bool_decide (protocol (url_parse db_url) = Some "https:")
                        then 443 else 80)).
Proof.
  intros Hq. destruct (client_request_shape _ _ _ _ _ _ Hq)
    as (path' & data' & hs & -> & _ & _).
  unfold build_request, exports. cbn [req_port req_hostname].
  split; [apply constructor_port_set|].
  unfold CouchDB. destruct (truthy (port (url_parse db_url))); simpl.
  - split; [done|]. split; [done|discriminate].
  - case_bool_decide; simpl; (split; [done|]); split; done.
Qed.

End Operations.

(** ** The claims on concrete runs *)

#[local] Existing Instance node.

Lemma client_classifies_response_witness :
  let r := plain_response 409 [conflict_body] in
  let d := VObj [("error", VStr "conflict");
                 ("reason", VStr "Document update conflict.")] in
  let w := start named_x [NetResponse r] in
  let q := save_request local (Some "a") (Some unstamped_body) in
  client_request local "PUT" "a" (VRef doc1) (heap w) = Normal q ∧
  (scripted (remote w) q).1 = NetResponse r ∧
  parsed_body r = Normal d ∧
  ∃ err,
    client scripted local "PUT" "a" (VRef doc1) mret w
      = (Normal [err; d; VResponse r], after scripted w q) ∧
    err = VError (VStr "Document update conflict.")
            [("error", VStr "conflict");
             ("reason", VStr "Document update conflict.");
             ("response", VResponse r)].
Proof.
  intros r d w q.
  assert (Hq : client_request local "PUT" "a" (VRef doc1) (heap w) = Normal q)
    by (vm_compute; reflexivity).
  assert (Hev : (scripted (remote w) q).1 = NetResponse r) by reflexivity.
  assert (Hd : parsed_body r = Normal d) by (vm_compute; reflexivity).
  split; [exact Hq|]. split; [exact Hev|]. split; [exact Hd|].
  destruct (client_classifies_response scripted local "PUT" "a"
              (VRef doc1) w q r d Hq Hev Hd) as (err & Hrun & _ & Herr & _).
  exists err. split; [exact Hrun|].
  destruct Herr as [-> _]; [vm_compute; discriminate | reflexivity | reflexivity].
Defined.

Lemma save_force_stamps_revision_witness :
  let probe := etag_response 200 (quoted "3-abc") in
  let w := start named_x [NetResponse probe;
                          NetResponse (plain_response 201 [saved_body])] in
  let w1 := after scripted w (probe_request local (Some "a")) in
  let failed := plain_response 500 [] in
  let v := start named_x [NetResponse failed] in
  let v1 := after scripted v (probe_request local (Some "a")) in
  truthy (get_field forced "force") = true ∧
  exists_ scripted local (Some "a") mret w
    = (Normal [VNull; VBool true; VStr "3-abc"], w1) ∧
  JSON_stringify (store_set doc1 "_rev" (VStr "3-abc") (heap w)) (VRef doc1)
    = Normal (Some stamped_body) ∧
  sent (save scripted local (Some "a") doc1 (Some forced) mret w).2
    = sent w ++ [probe_request local (Some "a");
                 save_request local (Some "a") (Some stamped_body)] ∧
  exists_ scripted local (Some "a") mret v = (Normal [status_failure failed], v1) ∧
  save scripted local (Some "a") doc1 (Some forced) mret v
    = (Normal [status_failure failed], v1).
Proof.
  intros probe w w1 failed v v1.
  assert (Hf : truthy (get_field forced "force") = true) by reflexivity.
  assert (Hp : exists_ scripted local (Some "a") mret w
               = (Normal [VNull; VBool true; VStr "3-abc"], w1))
    by (vm_compute; reflexivity).
  assert (Ho : JSON_stringify (store_set doc1 "_rev" (VStr "3-abc") (heap w))
                 (VRef doc1) = Normal (Some stamped_body))
    by (vm_compute; reflexivity).
  assert (Hv : exists_ scripted local (Some "a") mret v
               = (Normal [status_failure failed], v1))
    by (vm_compute; reflexivity).
  split; [exact Hf|]. split; [exact Hp|]. split; [exact Ho|]. split.
  - exact (proj1 (proj2 (proj1 (save_force_stamps_revision scripted local
                                  (Some "a") doc1 forced w w1 _ Hf Hp)
                          _ _ eq_refl Ho))).
  - split; [exact Hv|].
    exact (proj1 (proj2 (save_force_stamps_revision scripted local (Some "a")
                           doc1 forced v v1 _ Hf Hv) eq_refl)).
Defined.

Lemma client_serialization_failure_witness :
  let w := start cyclic ([] : list net_event) in
  is_write "PUT" = true ∧
  typeof_string (VRef doc1) = false ∧
  JSON_stringify (heap w) (VRef doc1) = Throw TypeError ∧
  client scripted local "PUT" "a" (VRef doc1) mret w = (Normal [TypeError], w) ∧
  sent (client scripted local "PUT" "a" (VRef doc1) mret w).2 = [].
Proof.
  intros w.
  assert (Hm : is_write "PUT" = true) by reflexivity.
  assert (Ht : typeof_string (VRef doc1) = false) by reflexivity.
  assert (He : JSON_stringify (heap w) (VRef doc1) = Throw TypeError)
    by (vm_compute; reflexivity).
  split; [exact Hm|]. split; [exact Ht|]. split; [exact He|].
  exact (proj2 (client_serialization_failure scripted local "PUT" "a"
                  (VRef doc1) TypeError mret w Hm Ht He)).
Defined.

Lemma client_sends_string_verbatim_witness :
  let w := start (∅ : store) ([] : list net_event) in
  is_write "POST" = true ∧
  ∃ q,
    client_request local "POST" "" (VStr "[1,2]") (heap w) = Normal q ∧
    String.concat "" (req_body q) = "[1,2]" ∧
    sent (client scripted local "POST" "" (VStr "[1,2]") mret w).2 = sent w ++ [q].
Proof.
  intros w.
  assert (Hm : is_write "POST" = true) by reflexivity.
  split; [exact Hm|].
  exact (proj1 (client_sends_string_verbatim scripted local "POST" ""
                  "[1,2]" w Hm)).
Defined.

Lemma exists_flag_and_revision_witness :
  let r := etag_response 200 (quoted "3-abc") in
  let w := start (∅ : store) [NetResponse r] in
  let q := probe_request local (Some "a") in
  (scripted (remote w) q).1 = NetResponse r ∧
  parsed_body r = Normal VNull ∧
  exists_ scripted local (Some "a") mret w
    = (Normal [VNull; VBool true; VStr "3-abc"], after scripted w q).
Proof.
  intros r w q.
  assert (Hev : (scripted (remote w) q).1 = NetResponse r) by reflexivity.
  assert (Hd : parsed_body r = Normal VNull) by reflexivity.
  split; [exact Hev|]. split; [exact Hd|].
  destruct (exists_flag_and_revision scripted local (Some "a") w r VNull Hev Hd)
    as (args & Hrun & _ & Herr & Hargs & Hrev & _ & _).
  rewrite Hrun.
  rewrite (Hargs (proj2 Herr (or_introl eq_refl))).
  rewrite (Hrev (quoted "3-abc") eq_refl ltac:(discriminate)).
  reflexivity.
Defined.

Lemma exists_surfaces_errors_witness :
  let q := probe_request local (Some "a") in
  let missing := plain_response 404 [] in
  let broken := plain_response 500 [] in
  let w := start (∅ : store) [NetResponse missing] in
  let v := start (∅ : store) [NetResponse broken] in
  let u := start (∅ : store) ([] : list net_event) in
  exists_ scripted local (Some "a") mret w
    = (Normal [VNull; VBool false; VNull], after scripted w q) ∧
  exists_ scripted local (Some "a") mret v
    = (Normal [status_failure broken], after scripted v q) ∧
  exists_ scripted local (Some "a") mret u
    = (Normal [VError (VStr "ECONNREFUSED") []], after scripted u q).
Proof.
  intros q missing broken w v u. split; [|split].
  - exact (proj2 (proj1 (proj1 (exists_surfaces_errors scripted local
                                  (Some "a") w) missing VNull eq_refl eq_refl)
                          eq_refl) eq_refl).
  - destruct (proj2 (proj1 (exists_surfaces_errors scripted local (Some "a") v)
                       broken VNull eq_refl eq_refl)
                ltac:(vm_compute; discriminate) ltac:(discriminate))
      as (err & Hrun & _ & ->).
    exact Hrun.
  - exact (proj2 (exists_surfaces_errors scripted local (Some "a") u)
             "ECONNREFUSED" eq_refl).
Defined.

Lemma force_without_document_keeps_revision_witness :
  let q := probe_request local (Some "a") in
  let w := start named_x [NetResponse (plain_response 404 []);
                          NetResponse (plain_response 201 [saved_body])] in
  truthy (get_field forced "force") = true ∧
  exists_ scripted local (Some "a") mret w
    = (Normal [VNull; VBool false; VNull], after scripted w q) ∧
  JSON_stringify (heap w) (VRef doc1) = Normal (Some unstamped_body) ∧
  sent (save scripted local (Some "a") doc1 (Some forced) mret w).2
    = sent w ++ [q; save_request local (Some "a") (Some unstamped_body)] ∧
  sent (delete scripted local (Some "a") (VStr "1-old") (Some forced) mret w).2
    = sent w ++ [q; delete_request local (Some "a") [("rev", VStr "1-old")] (heap w)] ∧
  req_path (delete_request local (Some "a") [("rev", VStr "1-old")] (heap w))
    = "/app/a?rev=1-old" ∧
  String.concat "" (req_body (save_request local (Some "a") (Some unstamped_body)))
    = unstamped_body ∧
  req_path (save_request local (Some "a") (Some unstamped_body)) = "/app/a".
Proof.
  intros q w.
  assert (Hf : truthy (get_field forced "force") = true) by reflexivity.
  assert (Hp : exists_ scripted local (Some "a") mret w
               = (Normal [VNull; VBool false; VNull], after scripted w q))
    by (vm_compute; reflexivity).
  assert (Ho : JSON_stringify (heap w) (VRef doc1) = Normal (Some unstamped_body))
    by (vm_compute; reflexivity).
  split; [exact Hf|]. split; [exact Hp|]. split; [exact Ho|].
  destruct (force_without_document_keeps_revision scripted local (Some "a")
              doc1 (VStr "1-old") forced w _ VNull Hf Hp)
    as (Hsave & Hdel & _ & _ & Hpath & _).
  destruct (Hsave _ Ho) as (Hsent & _ & _ & Hspath & Hbody).
  split; [exact Hsent|]. split; [exact Hdel|].
  split; [exact (eq_trans Hpath eq_refl)|].
  split; [exact Hbody|]. exact (eq_trans Hspath eq_refl).
Defined.

Lemma ensureDB_probes_before_creating_witness :
  let q := probe_request local (Some "") in
  let db := fun s : bool => s = true in
  let w0 := start (∅ : store) false in
  let created := [VNull; VObj [("ok", VBool true)];
                  VResponse (plain_response 201 [ok_body])] in
  let w := (ensureDB couch local mret w0).2 in
  probe_reports_database couch local db ∧
  ensureDB couch local mret w0 = (Normal created, w) ∧
  ensured created ∧
  sent w = [q; create_request local (Some "null")] ∧
  req_method q = "HEAD" ∧
  req_path q = "/app/" ∧
  req_path (create_request local (Some "null")) = "/app/" ∧
  String.concat "" (req_body (create_request local (Some "null"))) = "null" ∧
  ensureDB couch local mret w = (Normal [VNull; VCouchDB], after couch w q) ∧
  sent (after couch w q) = sent w ++ [q].
Proof.
  intros q db w0 created w.
  assert (Hdb : probe_reports_database couch local db).
  { split; [|split].
    - intros s o r s' Hs _. unfold couch in Hs.
      change (req_method (create_request local o)) with "PUT" in Hs.
      simpl in Hs. destruct s; injection Hs as _ <-; reflexivity.
    - intros s r s' Hs H200. unfold couch in Hs.
      change (req_method (probe_request local (Some ""))) with "HEAD" in Hs.
      simpl in Hs. destruct s; injection Hs as <- <-; [reflexivity|].
      discriminate H200.
    - intros s ->. eexists _, _. split; [reflexivity|]. split; reflexivity. }
  assert (Hp0 : exists_ couch local (Some "") mret w0
                = (Normal [VNull; VBool false; VNull], after couch w0 q))
    by (vm_compute; reflexivity).
  assert (Hrun : ensureDB couch local mret w0 = (Normal created, w))
    by (vm_compute; reflexivity).
  assert (Hok : ensured created) by (right; eexists _, _; reflexivity).
  pose proof (ensureDB_probes_before_creating couch local w0) as Hthm.
  cbv zeta in Hthm.
  destruct Hthm as ((Hm & Hpath & _) & _ & Hcases & Hagain).
  destruct (proj2 (Hcases _ _ Hp0) eq_refl) as (_ & Hcreate).
  destruct (Hcreate (Some "null") eq_refl) as (Hsent & _ & Hcpath & Hbody).
  destruct (Hagain db created w Hdb Hrun Hok) as (_ & Hsecond & Hlog).
  split; [exact Hdb|]. split; [exact Hrun|]. split; [exact Hok|].
  split; [exact Hsent|]. split; [exact Hm|].
  split; [exact (eq_trans Hpath eq_refl)|].
  split; [exact (eq_trans Hcpath (eq_trans Hpath eq_refl))|].
  split; [exact Hbody|]. split; [exact Hsecond|exact Hlog].
Defined.

Lemma constructor_resolves_port_witness :
  truthy (port (url_parse "https://db.example.com/app")) = false ∧
  port (CouchDB "https://db.example.com/app") = VNum 443 ∧
  truthy (port (url_parse "http://localhost/app")) = false ∧
  port (CouchDB "http://localhost/app") = VNum 80.
Proof.
  assert (Hs : truthy (port (url_parse "https://db.example.com/app")) = false)
    by reflexivity.
  assert (Hp : truthy (port (url_parse "http://localhost/app")) = false)
    by reflexivity.
  split; [exact Hs|]. split; [|split; [exact Hp|]].
  - exact (proj1 (constructor_resolves_port "https://db.example.com/app" Hs)
             eq_refl).
  - exact (proj1 (proj2 (constructor_resolves_port "http://localhost/app" Hp))
             ltac:(vm_compute; discriminate)).
Defined.

(** C2, as stated, fails on a body whose [error] property is present and
    empty: with status 409 the callback receives the error that carries the
    status code only, without the server's code and reason. *)
Lemma client_blank_error_code :
  let r := plain_response 409 [blank_error_body] in
  let d := VObj [("error", VStr "");
                 ("reason", VStr "Document update conflict.")] in
  let w := start named_x [NetResponse r] in
  parsed_body r = Normal d ∧
  has_error_field d ∧
  (client scripted local "PUT" "a" (VRef doc1) mret w).1
    = Normal [status_failure r; d; VResponse r] ∧
  status_failure r = VError (VStr "Status code: 409") [] ∧
  status_failure r ≠ database_error (heap w) d r ∧
  field (heap w) (status_failure r) "reason" = VUndefined.
Proof.
  intros r d w. split; [vm_compute; reflexivity|].
  split; [simpl; left|].
  split; [vm_compute; reflexivity|].
  split; [vm_compute; reflexivity|].
  split; [vm_compute; discriminate|reflexivity].
Qed.

(** C4, as stated, fails on a response whose entity-tag header is there with
    an empty value: the header is not absent, the value without a first and
    last character is the empty string, and the probe hands over [null]. *)
Lemma exists_empty_entity_tag :
  let r := etag_response 200 "" in
  let w := start (∅ : store) [NetResponse r] in
  headers r !! "etag" = Some "" ∧
  strip_ends "" = "" ∧
  (exists_ scripted local (Some "a") mret w).1
    = Normal [VNull; VBool true; VNull] ∧
  (exists_ scripted local (Some "a") mret w).1
    ≠ Normal [VNull; VBool true; VStr (strip_ends "")].
Proof.
  intros r w. split; [reflexivity|]. split; [reflexivity|].
  split; [vm_compute; reflexivity|vm_compute; discriminate].
Qed.

(** C7, as stated, fails against a server whose probe does not report the
    database: the first call creates the database and succeeds, the probe of
    the second call is answered by 404 again, the create goes out a second
    time and the call fails with the server's [file_exists]. *)
Lemma ensureDB_second_call_refused :
  let w0 := start (∅ : store) false in
  let first := ensureDB forgetful local mret w0 in
  let second := ensureDB forgetful local mret first.2 in
  let refusal := plain_response 412 [file_exists_body] in
  first.1 = Normal [VNull; VObj [("ok", VBool true)];
                    VResponse (plain_response 201 [ok_body])] ∧
  remote first.2 = true ∧
  second.1
    = Normal [VError (VStr "The database could not be created.")
                [("error", VStr "file_exists");
                 ("reason", VStr "The database could not be created.");
                 ("response", VResponse refusal)];
              VObj [("error", VStr "file_exists");
                    ("reason", VStr "The database could not be created.")];
              VResponse refusal] ∧
  map req_method (sent second.2) = ["HEAD"; "PUT"; "HEAD"; "PUT"] ∧
  map req_path (sent second.2) = ["/app/"; "/app/"; "/app/"; "/app/"].
Proof. repeat split; vm_compute; reflexivity. Qed.

(** C5, as stated, fails on a 404 that carries an entity tag: the probe hands
    over the revision of the tag, not [null]. *)
Lemma exists_missing_with_entity_tag :
  let r := etag_response 404 (quoted "1-abc") in
  let w := start (∅ : store) [NetResponse r] in
  (exists_ scripted local (Some "a") mret w).1
    = Normal [VNull; VBool false; VStr "1-abc"] ∧
  (exists_ scripted local (Some "a") mret w).1
    ≠ Normal [VNull; VBool false; VNull].
Proof.
  intros r w. split; [vm_compute; reflexivity|vm_compute; discriminate].
Qed.

(** C3 on the path without [force]: [save] with an id, a document and a
    callback, answered by 201 and the body that names the id and the new
    revision, hands the parsed body and the response to the callback, not the
    document, and the document in the store keeps the fields it had. *)
Theorem save_without_force_hands_over_response :
  let r := plain_response 201 [saved_body] in
  let w := start named_x [NetResponse r] in
  let run := save scripted local (Some "a") doc1 None mret w in
  run.1 = Normal [VNull;
                  VObj [("ok", VBool true); ("id", VStr "a"); ("rev", VStr "4-def")];
                  VResponse r] ∧
  run.1 ≠ Normal [VNull; VRef doc1] ∧
  heap run.2 !! doc1 = Some [("name", VStr "x"); ("_rev", VStr "1-old")] ∧
  field (heap run.2) (VRef doc1) "_id" = VUndefined.
Proof.
  intros r w run. split; [vm_compute; reflexivity|].
  split; [vm_compute; discriminate|].
  split; vm_compute; reflexivity.
Qed.

(** The same call with [force]: the document comes back, updated in place. *)
Example save_with_force_hands_over_document :
  let w := start named_x [NetResponse (etag_response 200 (quoted "3-abc"));
                          NetResponse (plain_response 201 [saved_body])] in
  let run := save scripted local (Some "a") doc1 (Some forced) mret w in
  run.1 = Normal [VNull; VRef doc1] ∧
  heap run.2 !! doc1
    = Some [("name", VStr "x"); ("_rev", VStr "4-def"); ("_id", VStr "a")] ∧
  map req_body (sent run.2) = [[]; [stamped_body]].
Proof. intros w run. repeat split; vm_compute; reflexivity. Qed.

(** A body that is not JSON: the exception of [JSON.parse] is not caught and
    the callback is not called. *)
Example client_body_not_json :
  let r := plain_response 502 ["<html>Bad Gateway</html>"] in
  let w := start (∅ : store) [NetResponse r] in
  (client scripted local "GET" "a" VNull mret w).1 = Throw SyntaxError.
Proof. vm_compute. reflexivity. Qed.

(** The conflict of the specification, end to end. *)
Example client_conflict :
  let r := plain_response 409 [conflict_body] in
  let w := start named_x [NetResponse r] in
  (client scripted local "PUT" "a" (VRef doc1) mret w).1
  = Normal [VError (VStr "Document update conflict.")
              [("error", VStr "conflict");
               ("reason", VStr "Document update conflict.");
               ("response", VResponse r)];
            VObj [("error", VStr "conflict");
                  ("reason", VStr "Document update conflict.")];
            VResponse r].
Proof. vm_compute. reflexivity. Qed.

(** Two calls of [ensureDB] in a row against a server without the database:
    the first creates it, the second finds it. *)
Example ensureDB_twice :
  let w0 := start (∅ : store) false in
  let first := ensureDB couch local mret w0 in
  let second := ensureDB couch local mret first.2 in
  map req_method (sent first.2) = ["HEAD"; "PUT"] ∧
  second.1 = Normal [VNull; VCouchDB] ∧
  map req_method (sent second.2) = ["HEAD"; "PUT"; "HEAD"].
Proof. repeat split; vm_compute; reflexivity. Qed.

(** ** The operations on concrete runs *)

Lemma client_request_headers_witness :
  let q := build_request secured "PUT" "/app/a" (VStr "[1,2]")
             (json_headers secured) in
  client_request secured "PUT" "a" (VStr "[1,2]") (∅ : store) = Normal q ∧
  req_headers q !! "Content-Type" = Some (VStr "application/json") ∧
  req_headers q !! "Authorization" = Some (VStr "Basic dXNlcjpzZWNyZXQ=").
Proof.
  intros q.
  assert (Hq : client_request secured "PUT" "a" (VStr "[1,2]") (∅ : store)
               = Normal q) by reflexivity.
  split; [exact Hq|].
  destruct (client_request_headers secured "PUT" "a" (VStr "[1,2]") ∅ q Hq)
    as (_ & _ & _ & _ & _ & Hc & Ha).
  split; [exact Hc|exact Ha].
Defined.

Lemma read_request_has_no_body_witness :
  let w := start (∅ : store) ([] : list net_event) in
  let data := VObj [("rev", VStr "1-old")] in
  is_write "DELETE" = false ∧
  ∃ q,
    client_request local "DELETE" "a" data (heap w) = Normal q ∧
    req_body q = [] ∧
    req_path q = "/app/a?rev=1-old".
Proof.
  intros w data.
  assert (Hm : is_write "DELETE" = false) by reflexivity.
  split; [exact Hm|].
  destruct (read_request_has_no_body scripted local "DELETE" "a" data w Hm)
    as (q & Hq & Hb & _ & _ & Hp).
  exists q. split; [exact Hq|]. split; [exact Hb|].
  rewrite (Hp eq_refl). reflexivity.
Defined.

Lemma client_parse_failure_witness :
  let r := plain_response 502 ["<html>Bad Gateway</html>"] in
  let w := start (∅ : store) [NetResponse r] in
  let q := build_request local "GET" "/app/a" VNull (base_headers local) in
  client_request local "GET" "a" VNull (heap w) = Normal q ∧
  (scripted (remote w) q).1 = NetResponse r ∧
  parsed_body r = Throw SyntaxError ∧
  client scripted local "GET" "a" VNull mret w
    = (Throw SyntaxError, after scripted w q).
Proof.
  intros r w q.
  assert (Hq : client_request local "GET" "a" VNull (heap w) = Normal q)
    by reflexivity.
  assert (Hev : (scripted (remote w) q).1 = NetResponse r) by reflexivity.
  assert (Hb : parsed_body r = Throw SyntaxError) by (vm_compute; reflexivity).
  split; [exact Hq|]. split; [exact Hev|]. split; [exact Hb|].
  exact (client_parse_failure scripted local "GET" "a" VNull mret w q r
           SyntaxError Hq Hev Hb).
Defined.

Lemma createDB_puts_root_witness :
  let w := start (∅ : store) false in
  let q := create_request local (Some "null") in
  JSON_stringify (heap w) VNull = Normal (Some "null") ∧
  createDB couch local mret w
    = (respond_result (heap w) (couch (remote w) q).1, after couch w q) ∧
  req_path q = "/app/" ∧
  req_body q = ["null"].
Proof.
  intros w q.
  assert (Ho : JSON_stringify (heap w) VNull = Normal (Some "null"))
    by reflexivity.
  split; [exact Ho|].
  split; [exact (proj1 (createDB_puts_root couch local w _ Ho))|].
  split; reflexivity.
Defined.

Lemma get_sends_one_request_witness :
  let w := start (∅ : store) [NetResponse (plain_response 200 [ok_body])] in
  ∃ q,
    get scripted local (Some "a") None mret w
      = (respond_result (heap w) (scripted (remote w) q).1, after scripted w q) ∧
    req_method q = "GET" ∧
    req_path q = "/app/a".
Proof.
  intros w.
  destruct (get_sends_one_request scripted local (Some "a") None w)
    as (q & Hrun & Hm & _ & Hp & _).
  exists q. split; [exact Hrun|]. split; [exact Hm|].
  rewrite (Hp eq_refl). reflexivity.
Defined.

Lemma delete_force_uses_probe_revision_witness :
  let q := probe_request local (Some "a") in
  let w := start (∅ : store) [NetResponse (etag_response 200 (quoted "3-abc"));
                             NetResponse (plain_response 200 [ok_body])] in
  truthy (get_field forced "force") = true ∧
  exists_ scripted local (Some "a") mret w
    = (Normal [VNull; VBool true; VStr "3-abc"], after scripted w q) ∧
  sent (delete scripted local (Some "a") (VStr "1-old") (Some forced) mret w).2
    = sent w ++ [q; delete_request local (Some "a") [("rev", VStr "3-abc")] (heap w)] ∧
  req_path (delete_request local (Some "a") [("rev", VStr "3-abc")] (heap w))
    = "/app/a?rev=3-abc".
Proof.
  intros q w.
  assert (Hf : truthy (get_field forced "force") = true) by reflexivity.
  assert (Hp : exists_ scripted local (Some "a") mret w
               = (Normal [VNull; VBool true; VStr "3-abc"], after scripted w q))
    by (vm_compute; reflexivity).
  split; [exact Hf|]. split; [exact Hp|]. split; [|reflexivity].
  exact (proj2 (delete_force_uses_probe_revision scripted local (Some "a")
                  (VStr "1-old") forced w _ _ Hf Hp)).
Defined.

Lemma delete_force_probe_error_witness :
  let q := probe_request local (Some "a") in
  let failed := plain_response 500 [] in
  let w := start (∅ : store) [NetResponse failed] in
  truthy (get_field forced "force") = true ∧
  exists_ scripted local (Some "a") mret w
    = (Normal [status_failure failed], after scripted w q) ∧
  truthy (status_failure failed) = true ∧
  delete scripted local (Some "a") (VStr "1-old") (Some forced) mret w
    = (Normal [status_failure failed], after scripted w q).
Proof.
  intros q failed w.
  assert (Hf : truthy (get_field forced "force") = true) by reflexivity.
  assert (Hp : exists_ scripted local (Some "a") mret w
               = (Normal [status_failure failed], after scripted w q))
    by (vm_compute; reflexivity).
  split; [exact Hf|]. split; [exact Hp|]. split; [reflexivity|].
  exact (proj1 (delete_force_probe_error scripted local (Some "a")
                  (VStr "1-old") forced w _ _ Hf Hp eq_refl)).
Defined.

Lemma exists_entity_tag_round_trip_witness :
  let r := etag_response 200 (quoted "3-abc") in
  let w := start (∅ : store) [NetResponse r] in
  let q := probe_request local (Some "a") in
  (scripted (remote w) q).1 = NetResponse r ∧
  parsed_body r = Normal VNull ∧
  statusCode r = 200 ∧
  headers r !! "etag" = Some (quoted "3-abc") ∧
  exists_ scripted local (Some "a") mret w
    = (Normal [VNull; VBool true; VStr "3-abc"], after scripted w q).
Proof.
  intros r w q.
  assert (Hev : (scripted (remote w) q).1 = NetResponse r) by reflexivity.
  assert (Hd : parsed_body r = Normal VNull) by reflexivity.
  assert (Hs : statusCode r = 200) by reflexivity.
  assert (He : headers r !! "etag" = Some (quoted "3-abc")) by reflexivity.
  split; [exact Hev|]. split; [exact Hd|]. split; [exact Hs|].
  split; [exact He|].
  exact (proj2 (exists_entity_tag_round_trip scripted local (Some "a") w r
                  VNull "3-abc" Hev Hd Hs He)).
Defined.

Lemma save_force_empty_response_throws_witness :
  let q := probe_request local (Some "a") in
  let answer := plain_response 201 [] in
  let w := start named_x [NetResponse (plain_response 404 []);
                          NetResponse answer] in
  let w1 := after scripted w q in
  let args := [VNull; VBool false; VNull] in
  truthy (get_field forced "force") = true ∧
  exists_ scripted local (Some "a") mret w = (Normal args, w1) ∧
  truthy (arg 0 args) = false ∧
  JSON_stringify (heap (stamped doc1 args w1)) (VRef doc1)
    = Normal (Some unstamped_body) ∧
  (scripted (remote w1) (save_request local (Some "a") (Some unstamped_body))).1
    = NetResponse answer ∧
  statusCode answer < 300 ∧
  chunks answer = [] ∧
  (save scripted local (Some "a") doc1 (Some forced) mret w).1 = Throw TypeError.
Proof.
  intros q answer w w1 args.
  assert (Hf : truthy (get_field forced "force") = true) by reflexivity.
  assert (Hp : exists_ scripted local (Some "a") mret w = (Normal args, w1))
    by (vm_compute; reflexivity).
  assert (He : truthy (arg 0 args) = false) by reflexivity.
  assert (Ho : JSON_stringify (heap (stamped doc1 args w1)) (VRef doc1)
               = Normal (Some unstamped_body)) by (vm_compute; reflexivity).
  assert (Hev : (scripted (remote w1)
                   (save_request local (Some "a") (Some unstamped_body))).1
                = NetResponse answer) by reflexivity.
  assert (Hs : statusCode answer < 300) by reflexivity.
  assert (Hc : chunks answer = []) by reflexivity.
  split; [exact Hf|]. split; [exact Hp|]. split; [exact He|].
  split; [exact Ho|]. split; [exact Hev|]. split; [exact Hs|].
  split; [exact Hc|].
  exact (f_equal fst
           (proj1 (save_force_empty_response_throws scripted local (Some "a")
                     doc1 forced w w1 args _ answer Hf Hp He Ho Hev Hs Hc))).
Defined.

Lemma save_force_without_id_probes_root_witness :
  let root := plain_response 200 [] in
  let w := start named_x [NetResponse root;
                          NetResponse (plain_response 201 [saved_body])] in
  opt_truthy None = false ∧
  truthy (get_field forced "force") = true ∧
  (scripted (remote w) (probe_request local (Some ""))).1 = NetResponse root ∧
  parsed_body root = Normal VNull ∧
  statusCode root = 200 ∧
  headers root !! "etag" = None ∧
  JSON_stringify (store_set doc1 "_rev" VNull (heap w)) (VRef doc1)
    = Normal (Some null_rev_body) ∧
  sent (save scripted local None doc1 (Some forced) mret w).2
    = sent w ++ [probe_request local (Some "");
                 save_request local None (Some null_rev_body)] ∧
  req_body (save_request local None (Some null_rev_body)) = [null_rev_body].
Proof.
  intros root w.
  assert (Hid : opt_truthy None = false) by reflexivity.
  assert (Hf : truthy (get_field forced "force") = true) by reflexivity.
  assert (Hev : (scripted (remote w) (probe_request local (Some ""))).1
                = NetResponse root) by reflexivity.
  assert (Hd : parsed_body root = Normal VNull) by reflexivity.
  assert (Hs : statusCode root = 200) by reflexivity.
  assert (He : headers root !! "etag" = None) by reflexivity.
  assert (Ho : JSON_stringify (store_set doc1 "_rev" VNull (heap w)) (VRef doc1)
               = Normal (Some null_rev_body)) by (vm_compute; reflexivity).
  split; [exact Hid|]. split; [exact Hf|]. split; [exact Hev|].
  split; [exact Hd|]. split; [exact Hs|]. split; [exact He|].
  split; [exact Ho|]. split; [|reflexivity].
  exact (proj2 (proj2 (proj2 (save_force_without_id_probes_root scripted local
           None doc1 forced w root VNull _ Hid Hf Hev Hd Hs He Ho)))).
Defined.

Lemma save_force_returns_updated_document_witness :
  let q := probe_request local (Some "a") in
  let answer := plain_response 201 [saved_body] in
  let w := start named_x [NetResponse (etag_response 200 (quoted "3-abc"));
                          NetResponse answer] in
  let w1 := after scripted w q in
  let args := [VNull; VBool true; VStr "3-abc"] in
  let fs := [("ok", VBool true); ("id", VStr "a"); ("rev", VStr "4-def")] in
  let run := save scripted local (Some "a") doc1 (Some forced) mret w in
  truthy (get_field forced "force") = true ∧
  exists_ scripted local (Some "a") mret w = (Normal args, w1) ∧
  truthy (arg 0 args) = false ∧
  JSON_stringify (heap (stamped doc1 args w1)) (VRef doc1)
    = Normal (Some stamped_body) ∧
  (scripted (remote w1) (save_request local (Some "a") (Some stamped_body))).1
    = NetResponse answer ∧
  statusCode answer < 300 ∧
  parsed_body answer = Normal (VObj fs) ∧
  run.1 = Normal [VNull; VRef doc1] ∧
  field (heap run.2) (VRef doc1) "_id" = VStr "a" ∧
  field (heap run.2) (VRef doc1) "_rev" = VStr "4-def".
Proof.
  intros q answer w w1 args fs run.
  assert (Hf : truthy (get_field forced "force") = true) by reflexivity.
  assert (Hp : exists_ scripted local (Some "a") mret w = (Normal args, w1))
    by (vm_compute; reflexivity).
  assert (He : truthy (arg 0 args) = false) by reflexivity.
  assert (Ho : JSON_stringify (heap (stamped doc1 args w1)) (VRef doc1)
               = Normal (Some stamped_body)) by (vm_compute; reflexivity).
  assert (Hev : (scripted (remote w1)
                   (save_request local (Some "a") (Some stamped_body))).1
                = NetResponse answer) by reflexivity.
  assert (Hs : statusCode answer < 300) by reflexivity.
  assert (Hd : parsed_body answer = Normal (VObj fs)) by (vm_compute; reflexivity).
  split; [exact Hf|]. split; [exact Hp|]. split; [exact He|].
  split; [exact Ho|]. split; [exact Hev|]. split; [exact Hs|].
  split; [exact Hd|].
  exact (save_force_returns_updated_document scripted local (Some "a") doc1
           forced w w1 args _ answer fs Hf Hp He Ho Hev Hs Hd).
Defined.

Lemma exports_requests_reach_resolved_port_witness :
  let this := exports "https://db.example.com/app" in
  let q := build_request this "GET" "/app/a" VNull (base_headers this) in
  client_request this "GET" "a" VNull (∅ : store) = Normal q ∧
  truthy (port (url_parse "https://db.example.com/app")) = false ∧
  req_port q = VNum 443 ∧
  req_hostname q = Some "db.example.com".
Proof.
  intros this q.
  assert (Hq : client_request this "GET" "a" VNull (∅ : store) = Normal q)
    by reflexivity.
  split; [exact Hq|]. split; [reflexivity|].
  destruct (exports_requests_reach_resolved_port "https://db.example.com/app"
              "GET" "a" VNull ∅ q Hq) as (_ & Hh & _ & Hp).
  split; [exact (Hp eq_refl)|exact Hh].
Defined.
